(** * Hierarchical logger of stoxum-lib (orderbook/src/log.js)

    A shallow embedding of [log.js]: the [Log] constructor and its
    namespace prefix, [sub], the level methods built by [Log.makeLevel],
    the shared helpers [getLogInfo] and [logMessage], the three built-in
    engines and the engine registry ([Log.getEngine] / [Log.setEngine]).

    Modelling conventions.
    - JavaScript values are the inductive [value]. Numbers are the
      integer-valued doubles (printed in decimal, which is what JavaScript
      does below 10^21), NaN and the two infinities. Strings are sequences
      of code units below 256. Arrays and plain objects are structural;
      a plain object is an association list read from the head, without
      prototype members or getters. The models of [String()] and
      [JSON.stringify] are those of JavaScript on the values [plain]
      accepts (no [toJSON], [toString] or [valueOf] member, no array
      index as member name, safe integers); statements that depend on
      them carry that hypothesis. Cyclic values, BigInt and Symbol are
      not values of the model.
    - Functions are named by [fn]: the three [logObject] functions of the
      file, and user functions [FUser n], whose source text and behaviour
      are parameters of the development ([fn_source], [user_call]). A
      function carries its own members, as a class carries its static
      methods.
    - The printing engines are modelled on a third argument that is an
      array or has no [map] of its own.
    - [Log] instances live in a store ([loggers]) and are named by their
      location, so that identity, the parent link and mutation can be
      stated.
    - The environment of one call ([env]) gives what the code reads from
      its host: the clock, the text of [new Error().stack] and
      [navigator.userAgent]. The console is the list of the writes made
      to it, newest first; it is assumed to offer log, warn and error. *)

From Stdlib Require Import ZArith Ascii String List Bool Lia DecimalString.
From stdpp Require Import base option strings gmap.

Import ListNotations.
Local Open Scope string_scope.
Local Open Scope list_scope.

(** ** Values *)

Inductive number : Type :=
| NInt (z : Z)
| NNaN
| NInf (negative : bool).

Inductive fn : Type :=
| FBasicLogObject
| FInteractiveLogObject
| FNoneLogObject
| FUser (id : nat).

#[warnings="-register-all"] Inductive value : Type :=
| VUndefined
| VNull
| VBool (b : bool)
| VNum (n : number)
| VStr (s : string)
| VArr (items : list value)
| VObj (fields : list (string * value))
| VFun (f : fn) (members : list (string * value)).

Definition loc := nat.

(** [typeof v]. *)
Definition typeof (v : value) : string :=
  match v with
  | VUndefined => "undefined"
  | VNull => "object"
  | VBool _ => "boolean"
  | VNum _ => "number"
  | VStr _ => "string"
  | VArr _ => "object"
  | VObj _ => "object"
  | VFun _ _ => "function"
  end.

(** ToBoolean: the falsy values are undefined, null, false, 0, NaN and
    the empty string. *)
Definition truthy (v : value) : bool :=
  match v with
  | VUndefined | VNull => false
  | VBool b => b
  | VNum (NInt z) => negb (Z.eqb z 0)
  | VNum NNaN => false
  | VNum (NInf _) => true
  | VStr s => negb (String.eqb s "")
  | VArr _ | VObj _ | VFun _ _ => true
  end.

Definition isArray (v : value) : bool :=
  match v with VArr _ => true | _ => false end.

(** Number::toString for the modelled numbers: decimal, as JavaScript
    prints the safe integers. *)
Definition number_to_string (n : number) : string :=
  match n with
  | NInt z => NilZero.string_of_int (Z.to_int z)
  | NNaN => "NaN"
  | NInf false => "Infinity"
  | NInf true => "-Infinity"
  end.

(** [join_by f sep l]: the texts [f x] of the elements, [sep] between
    two neighbours (the loop of Array.prototype.join). *)
Definition join_by {A : Type} (f : A -> string) (sep : string)
  : list A -> string :=
  fix go (l : list A) : string :=
    match l with
    | [] => ""
    | x :: r =>
        match r with
        | [] => f x
        | _ :: _ => f x +:+ sep +:+ go r
        end
    end.

(** [get o k]: property read [o.k] on a value that is not null or
    undefined; absent members read as undefined. A function is read
    through the members it carries itself. *)
Fixpoint assoc (k : string) (fields : list (string * value)) : value :=
  match fields with
  | [] => VUndefined
  | (k', v) :: r => if String.eqb k k' then v else assoc k r
  end.

Definition get (o : value) (k : string) : value :=
  match o with
  | VObj fields => assoc k fields
  | VFun _ members => assoc k members
  | _ => VUndefined
  end.

(** ** Classes of values named by the specification *)

Definition is_primitive (v : value) : bool :=
  match v with
  | VUndefined | VBool _ | VNum _ | VStr _ => true
  | _ => false
  end.

(** Arrays, plain objects and functions are the objects. *)
Definition is_object (v : value) : bool :=
  match v with
  | VArr _ | VObj _ | VFun _ _ => true
  | _ => false
  end.

Definition is_function (v : value) : bool :=
  match v with
  | VFun _ _ => true
  | _ => false
  end.

Definition has_callable (k : string) (v : value) : bool :=
  match get v k with
  | VFun _ _ => true
  | _ => false
  end.

(** The two sides of the contract of [setEngine]: accepted is an
    object that is no function and has a callable [logObject]. *)
Definition engine_accepted (v : value) : bool :=
  is_object v && negb (is_function v) && has_callable "logObject" v.

Definition engine_rejected (v : value) : bool :=
  match v with VNull => true | _ => false end
  || is_primitive v
  || is_function v
  || (is_object v && negb (has_callable "logObject" v)).

Definition is_text (v : value) : bool :=
  match v with VStr _ => true | _ => false end.

(** ** Plain data *)

(** The values on which the models of [String()] and [JSON.stringify]
    below are those of JavaScript: integers are safe integers; the
    members of an object or function have distinct names, none of them
    an array index (so that the order of the list is the order of the
    own properties) and none of them a hook that the two conversions
    would call ([toJSON], [toString], [valueOf]). *)
Definition hook_key (k : string) : bool :=
  String.eqb k "toJSON" || String.eqb k "toString" || String.eqb k "valueOf".

Definition is_digit (c : ascii) : bool :=
  let n := nat_of_ascii c in Nat.leb 48 n && Nat.leb n 57.

Fixpoint all_digits (k : string) : bool :=
  match k with
  | EmptyString => true
  | String c r => is_digit c && all_digits r
  end.

Definition index_like (k : string) : bool :=
  negb (String.eqb k "") && all_digits k.

Fixpoint distinct (keys : list string) : bool :=
  match keys with
  | [] => true
  | k :: r => negb (existsb (String.eqb k) r) && distinct r
  end.

Definition good_keys (fields : list (string * value)) : bool :=
  forallb (fun k => negb (hook_key k) && negb (index_like k))
          (List.map fst fields)
  && distinct (List.map fst fields).

Fixpoint plain (v : value) : bool :=
  match v with
  | VUndefined | VNull | VBool _ | VStr _ => true
  | VNum (NInt z) => Z.leb (Z.abs z) 9007199254740992
  | VNum _ => true
  | VArr items => forallb plain items
  | VObj fields =>
      good_keys fields &&
      (fix all (fs : list (string * value)) : bool :=
         match fs with
         | [] => true
         | (_, x) :: r => plain x && all r
         end) fields
  | VFun _ members =>
      good_keys members &&
      (fix all (fs : list (string * value)) : bool :=
         match fs with
         | [] => true
         | (_, x) :: r => plain x && all r
         end) members
  end.

(** ** Text helpers *)

Definition dquote : string := String "034"%char "".
Definition backslash : string := String "092"%char "".
Definition newline : string := String "010"%char "".

(** [s.split('\n')]: never empty, one entry more than there are line
    feeds. *)
Fixpoint split_lines (s : string) : list string :=
  match s with
  | EmptyString => [""]
  | String c r =>
      if Ascii.eqb c "010"%char then "" :: split_lines r
      else match split_lines r with
           | [] => [String c ""]
           | line :: rest => String c line :: rest
           end
  end.

(** The class [\s] on code units below 256. *)
Definition is_space (c : ascii) : bool :=
  let n := nat_of_ascii c in
  (Nat.leb 9 n && Nat.leb n 13) || Nat.eqb n 32 || Nat.eqb n 160.

(** [s.replace(/^\s+/, '')]. *)
Fixpoint trim_start (s : string) : string :=
  match s with
  | EmptyString => ""
  | String c r => if is_space c then trim_start r else s
  end.

(** [/p/.test(s)] for a pattern [p] of plain characters. *)
Fixpoint has_substring (p s : string) : bool :=
  String.prefix p s ||
  match s with
  | EmptyString => false
  | String _ r => has_substring p r
  end.

Definition hex_digit (n : nat) : string :=
  String (match n with
          | 0 => "0" | 1 => "1" | 2 => "2" | 3 => "3" | 4 => "4"
          | 5 => "5" | 6 => "6" | 7 => "7" | 8 => "8" | 9 => "9"
          | 10 => "a" | 11 => "b" | 12 => "c" | 13 => "d" | 14 => "e"
          | _ => "f"
          end)%char "".

(** QuoteJSONString, character by character. *)
Definition json_escape (c : ascii) : string :=
  let n := nat_of_ascii c in
  if Nat.eqb n 34 then backslash +:+ dquote
  else if Nat.eqb n 92 then backslash +:+ backslash
  else if Nat.eqb n 8 then backslash +:+ "b"
  else if Nat.eqb n 9 then backslash +:+ "t"
  else if Nat.eqb n 10 then backslash +:+ "n"
  else if Nat.eqb n 12 then backslash +:+ "f"
  else if Nat.eqb n 13 then backslash +:+ "r"
  else if Nat.ltb n 32
       then backslash +:+ "u00" +:+ hex_digit (n / 16) +:+ hex_digit (n mod 16)
  else String c "".

Fixpoint json_escape_all (s : string) : string :=
  match s with
  | EmptyString => ""
  | String c r => json_escape c +:+ json_escape_all r
  end.

Definition json_quote (s : string) : string :=
  dquote +:+ json_escape_all s +:+ dquote.

(** [JSON.stringify(v, null, 2)] below the indentation [indent], on
    plain data: no [toJSON] member is looked for, and nothing raises.
    [None] is the result undefined. In an array an unserializable
    element prints as null, in an object its member is left out. *)
Definition gap : string := "  ".

Definition json_block (open close indent inner : string)
    (partial : list string) : string :=
  match partial with
  | [] => open +:+ close
  | _ :: _ =>
      open +:+ newline +:+ inner
        +:+ join_by id ("," +:+ newline +:+ inner) partial
        +:+ newline +:+ indent +:+ close
  end.

Fixpoint json_property (indent : string) (v : value) : option string :=
  match v with
  | VUndefined => None
  | VFun _ _ => None
  | VNull => Some "null"
  | VBool true => Some "true"
  | VBool false => Some "false"
  | VNum (NInt z) => Some (number_to_string (NInt z))
  | VNum _ => Some "null"
  | VStr s => Some (json_quote s)
  | VArr items =>
      let inner := indent +:+ gap in
      Some (json_block "[" "]" indent inner
              (List.map (fun x => match json_property inner x with
                                  | Some t => t
                                  | None => "null"
                                  end) items))
  | VObj fields =>
      let inner := indent +:+ gap in
      Some (json_block "{" "}" indent inner
              ((fix members (fs : list (string * value)) : list string :=
                  match fs with
                  | [] => []
                  | (k, x) :: r =>
                      match json_property inner x with
                      | Some t => (json_quote k +:+ ": " +:+ t) :: members r
                      | None => members r
                      end
                  end) fields))
  end.

Definition JSON_stringify (v : value) : value :=
  match json_property "" v with
  | Some t => VStr t
  | None => VUndefined
  end.

(** ** Errors, results, the host and the program state *)

Inductive js_error : Type :=
| AssertionError
| TypeError
| ReferenceError
| UserError (thrown : value).

Inductive result (A : Type) : Type :=
| Returned (a : A)
| Threw (e : js_error).
Arguments Returned {A} a.
Arguments Threw {A} e.

Inductive stream : Type := ConsoleLog | ConsoleWarn | ConsoleError.

(** What one call reads from its host. [error_stack] is the value of
    [new Error().stack]; [userAgent] is [None] where there is no
    [navigator]. *)
Record env : Type := mkEnv {
  now_iso : string;
  error_stack : value;
  userAgent : option string
}.

Record Logger : Type := mkLogger {
  _namespace : list value;
  _prefix : string;
  _parent : option loc
}.

(** [Log_engine] is the one variable [Log.engine]. *)
Record state : Type := mkState {
  Log_engine : value;
  loggers : gmap loc Logger;
  console : list (stream * list value)
}.

(** The stream the specification assigns to a level number. *)
Definition stream_of_level (level : Z) : option stream :=
  match level with
  | 1%Z | 2%Z => Some ConsoleLog
  | 3%Z => Some ConsoleWarn
  | 4%Z => Some ConsoleError
  | _ => None
  end.

Definition set_engine (e : value) (st : state) : state :=
  {| Log_engine := e; loggers := loggers st; console := console st |}.

Definition set_logger (l : loc) (L : Logger) (st : state) : state :=
  {| Log_engine := Log_engine st;
     loggers := <[l := L]> (loggers st);
     console := console st |}.

Definition console_write (s : stream) (items : list value) (st : state)
  : state :=
  {| Log_engine := Log_engine st;
     loggers := loggers st;
     console := (s, items) :: console st |}.

Section Program.

(** Source text of a function, as Function.prototype.toString gives it. *)
Variable fn_source : fn -> string.

(** Behaviour of the user function [FUser n] on its arguments. *)
Variable user_call : nat -> list value -> env -> state -> result value * state.

(** ToString. An element of an array that is null or undefined joins as
    the empty text. *)
Fixpoint to_string (v : value) : string :=
  match v with
  | VUndefined => "undefined"
  | VNull => "null"
  | VBool true => "true"
  | VBool false => "false"
  | VNum n => number_to_string n
  | VStr s => s
  | VArr items =>
      join_by (fun x => match x with
                        | VUndefined | VNull => ""
                        | _ => to_string x
                        end) "," items
  | VObj _ => "[object Object]"
  | VFun f _ => fn_source f
  end.

Definition join_item (x : value) : string :=
  match x with
  | VUndefined | VNull => ""
  | _ => to_string x
  end.

(** [a.join(sep)]. *)
Definition array_join (sep : string) (items : list value) : string :=
  join_by join_item sep items.

(** ** The Log object *)

(** [function Log(namespace)]: the fields the constructor writes. *)
Definition Log (namespace : value) : Logger :=
  let ns :=
    if negb (truthy namespace) then []
    else match namespace with
         | VArr items => items
         | _ => [VStr (to_string namespace)]
         end in
  {| _namespace := ns;
     _prefix := array_join ": " (ns ++ [VStr ""]);
     _parent := None |}.

(** [new Log(namespace)]: a fresh location holding the constructed
    object. *)
Definition new_Log (namespace : value) (st : state) : loc * state :=
  let l := fresh (dom (loggers st)) in
  (l, set_logger l (Log namespace) st).

(** [Log.prototype._setParent]. *)
Definition _setParent (this parentLogger : loc) (st : state) : state :=
  match loggers st !! this with
  | None => st
  | Some L =>
      set_logger this {| _namespace := _namespace L;
                         _prefix := _prefix L;
                         _parent := Some parentLogger |} st
  end.

(** [Log.prototype.sub]. [this] outside the store names no object, and
    reading its [_namespace] fails. *)
Definition sub (this : loc) (namespace : value) (st : state)
  : result loc * state :=
  match loggers st !! this with
  | None => (Threw TypeError, st)
  | Some L =>
      let subNamespace :=
        _namespace L ++
        (if truthy namespace && String.eqb (typeof namespace) "string"
         then [namespace] else []) in
      let (subLogger, st1) := new_Log (VArr subNamespace) st in
      (Returned subLogger, _setParent subLogger this st1)
  end.

(** The name [sub] pushes, and the object it stores at the new
    location. *)
Definition pushed (namespace : value) : list value :=
  if truthy namespace && String.eqb (typeof namespace) "string"
  then [namespace] else [].

Definition child_of (this : loc) (L : Logger) (namespace : value) : Logger :=
  {| _namespace := _namespace L ++ pushed namespace;
     _prefix := array_join ": "
                  ((_namespace L ++ pushed namespace) ++ [VStr ""]);
     _parent := Some this |}.

(** ** Output helpers *)

(** The location entry of [getLogInfo]: the fifth line of the stack
    text without its leading blanks, the empty text when the stack is no
    string. Reading [replace] on a missing fifth line is a TypeError. *)
Definition location (stack : value) : result string :=
  match stack with
  | VStr text =>
      match nth_error (split_lines text) 4 with
      | Some line => Returned (trim_start line)
      | None => Threw TypeError
      end
  | _ => Returned ""
  end.

Definition getLogInfo (e : env) (message : value) (args : list value)
  : result (list value) :=
  match location (error_stack e) with
  | Returned where_ =>
      Returned ([ VStr ("[" +:+ now_iso e +:+ "]");
                  message;
                  VStr "--";
                  VStr where_;
                  VStr newline ] ++ args)
  | Threw err => Threw err
  end.

(** The items every printing engine starts from. *)
Definition heading (e : env) (message where_ : string) : list value :=
  [ VStr ("[" +:+ now_iso e +:+ "]"); VStr message; VStr "--";
    VStr where_; VStr newline ].

Definition logMessage (logLevel : value) (args : list value) (st : state)
  : state :=
  match logLevel with
  | VNum (NInt 1) | VNum (NInt 2) => console_write ConsoleLog args st
  | VNum (NInt 3) => console_write ConsoleWarn args st
  | VNum (NInt 4) => console_write ConsoleError args st
  | _ => st
  end.

(** ** Engines *)

Definition argument (i : nat) (args : list value) : value :=
  nth i args VUndefined.

(** The common tail of the two printing engines. *)
Definition emit (e : env) (level message : value) (args : list value)
    (st : state) : result value * state :=
  match getLogInfo e message args with
  | Returned info => (Returned VUndefined, logMessage level info st)
  | Threw err => (Threw err, st)
  end.

(** [engines.basic.logObject]. [args_.map] is that of arrays: a third
    argument that is no array is taken to have no [map] of its own, and
    the call of [map] raises. *)
Definition basic_logObject (actuals : list value) (e : env) (st : state)
  : result value * state :=
  match argument 2 actuals with
  | VArr args_ =>
      emit e (argument 0 actuals) (argument 1 actuals)
           (List.map JSON_stringify args_) st
  | _ => (Threw TypeError, st)
  end.

(** [engines.interactive.logObject], with the same reading of
    [args_.map]. *)
Definition interactive_logObject (actuals : list value) (e : env)
    (st : state) : result value * state :=
  match argument 2 actuals with
  | VArr args_ =>
      match args_, userAgent e with
      | _ :: _, None => (Threw ReferenceError, st)
      | [], None =>
          emit e (argument 0 actuals) (argument 1 actuals) [] st
      | _, Some agent =>
          emit e (argument 0 actuals) (argument 1 actuals)
               (List.map (fun arg => if has_substring "MSIE" agent
                                     then JSON_stringify arg else arg)
                         args_) st
      end
  | _ => (Threw TypeError, st)
  end.

Definition none_logObject (actuals : list value) (e : env) (st : state)
  : result value * state :=
  (Returned VUndefined, st).

Definition engines_basic : value :=
  VObj [("logObject", VFun FBasicLogObject [])].
Definition engines_interactive : value :=
  VObj [("logObject", VFun FInteractiveLogObject [])].
Definition engines_none : value :=
  VObj [("logObject", VFun FNoneLogObject [])].

(** [f.apply(_, actuals)]. *)
Definition call (f : value) (actuals : list value) (e : env) (st : state)
  : result value * state :=
  match f with
  | VFun FBasicLogObject _ => basic_logObject actuals e st
  | VFun FInteractiveLogObject _ => interactive_logObject actuals e st
  | VFun FNoneLogObject _ => none_logObject actuals e st
  | VFun (FUser n) _ => user_call n actuals e st
  | _ => (Threw TypeError, st)
  end.

(** ** Level methods *)

(** The message a level method hands to the engine. *)
Definition prefixed (L : Logger) (args : list value) : string :=
  _prefix L +:+ to_string (argument 0 args).

(** The actual arguments a level method of number [level] builds for
    [logObject]. *)
Definition handed (level : Z) (L : Logger) (args : list value) : list value :=
  [VNum (NInt level); VStr (prefixed L args); VArr (tl args)].

(** [Log.engine.logObject.apply(Log, [level, message, extras])]. *)
Definition dispatch (level : Z) (message : string) (extras : list value)
    (e : env) (st : state) : result value * state :=
  match Log_engine st with
  | VUndefined | VNull => (Threw TypeError, st)
  | engine =>
      call (get engine "logObject")
           [VNum (NInt level); VStr message; VArr extras] e st
  end.

(** A level method has no [return]: what the engine returns is
    dropped, what it throws goes on to the caller. *)
Definition discard_value (r : result value * state) : result value * state :=
  match r with
  | (Returned _, st) => (Returned VUndefined, st)
  | (Threw err, st) => (Threw err, st)
  end.

Definition makeLevel (level : Z) (this : loc) (args : list value)
    (e : env) (st : state) : result value * state :=
  match loggers st !! this with
  | None => (Threw TypeError, st)
  | Some L => discard_value (dispatch level (prefixed L args) (tl args) e st)
  end.

Definition debug := makeLevel 1.
Definition info := makeLevel 2.
Definition warn := makeLevel 3.
Definition error := makeLevel 4.

(** ** Engine registry *)

(** The receiver of [getEngine] / [setEngine]: the constructor [Log]
    or one of its instances, which finds the same function on the
    prototype. *)
Inductive receiver : Type :=
| OnLog
| OnInstance (l : loc).

Definition getEngine (this : receiver) (st : state) : value :=
  Log_engine st.

Definition setEngine (this : receiver) (engine : value) (st : state)
  : result value * state :=
  if negb (String.eqb (typeof engine) "object")
  then (Threw AssertionError, st)
  else match engine with
       | VNull => (Threw TypeError, st)
       | _ =>
           if negb (String.eqb (typeof (get engine "logObject")) "function")
           then (Threw AssertionError, st)
           else (Returned VUndefined, set_engine engine st)
       end.

(** ** Module initialisation *)

Definition empty_state : state :=
  {| Log_engine := VUndefined; loggers := ∅; console := [] |}.

(** The engine chosen when the module is loaded, from what the host
    offers. *)
Definition default_engine (has_window has_console has_console_log : bool)
  : value :=
  if has_window && has_console then engines_interactive
  else if has_console && has_console_log then engines_basic
  else engines_none.

Record exports : Type := mkExports {
  root : loc;
  internal : result loc
}.

Definition module_init (has_window has_console has_console_log : bool)
  : exports * state :=
  let st0 :=
    snd (setEngine OnLog
           (default_engine has_window has_console has_console_log)
           empty_state) in
  let (r, st1) := new_Log VUndefined st0 in
  let (i, st2) := sub r VUndefined st1 in
  ({| root := r; internal := i |}, st2).

(** The engine object whose [logObject] is the user function [n]. *)
Definition user_engine_of (n : nat) : value :=
  VObj [("logObject", VFun (FUser n) [])].

(** An engine whose [logObject] writes no [Log] object. *)
Definition keeps_loggers (engine : value) : Prop :=
  forall (actuals : list value) (e : env) (st : state),
    loggers (snd (call (get engine "logObject") actuals e st)) = loggers st.

End Program.

(** ** Sample host *)

Definition sample_source (f : fn) : string := "function () { }".

Definition sample_user_call (n : nat) (actuals : list value) (e : env)
    (st : state) : result value * state :=
  (Returned VUndefined, st).

(** A stack text as V8 prints it for a call of a level method from
    [main], and one cut after four lines. *)
Definition sample_stack : string :=
  "Error" +:+ newline +:+
  "    at getLogInfo (log.js:77:17)" +:+ newline +:+
  "    at Object.logObject (log.js:124:23)" +:+ newline +:+
  "    at Log.<anonymous> (log.js:61:25)" +:+ newline +:+
  "    at main (app.js:3:7)".

Definition short_stack : string :=
  "Error" +:+ newline +:+
  "    at getLogInfo (log.js:77:17)" +:+ newline +:+
  "    at Object.logObject (log.js:124:23)" +:+ newline +:+
  "    at Log.<anonymous> (log.js:61:25)".

Definition sample_env : env :=
  {| now_iso := "2018-03-01T12:00:00.000Z";
     error_stack := VStr sample_stack;
     userAgent := None |}.

Definition short_env : env :=
  {| now_iso := "2018-03-01T12:00:00.000Z";
     error_stack := VStr short_stack;
     userAgent := None |}.

(** The module loaded under Node.js: the root logger is at [root_loc]. *)
Definition node_state : state :=
  snd (module_init sample_source false true true).

Definition root_loc : loc :=
  root (fst (module_init sample_source false true true)).

(** The object [new Log()] stores. *)
Definition root_logger : Logger :=
  {| _namespace := []; _prefix := ""; _parent := None |}.

(** ** Scripts, reachable states and what they keep *)

(** Line feeds of a text. *)
Fixpoint count_lf (s : string) : nat :=
  match s with
  | EmptyString => 0
  | String c r => (if Ascii.eqb c "010"%char then 1 else 0) + count_lf r
  end.

Definition starts_with_space (s : string) : bool :=
  match s with
  | EmptyString => false
  | String c _ => is_space c
  end.

(** The stream [logMessage] picks for a level value: the cases of its
    [switch], which compares with [===]. *)
Definition routed (level : value) : option stream :=
  match level with
  | VNum (NInt k) => stream_of_level k
  | _ => None
  end.

Definition is_builtin_engine (engine : value) : Prop :=
  engine = engines_basic \/ engine = engines_interactive \/
  engine = engines_none.

Section Scripts.

Variable fn_source : fn -> string.
Variable user_call : nat -> list value -> env -> state -> result value * state.

(** [this.sub(n1).sub(n2)...], stopping at the first failure. *)
Fixpoint sub_path (this : loc) (names : list value) (st : state)
  : result loc * state :=
  match names with
  | [] => (Returned this, st)
  | n :: rest =>
      match sub fn_source this n st with
      | (Returned l, st1) => sub_path l rest st1
      | (Threw err, st1) => (Threw err, st1)
      end
  end.

(** A script of level calls, each one caught by its caller. *)
Record level_call : Type := mkCall {
  call_level : Z;
  call_this : loc;
  call_args : list value;
  call_env : env
}.

Fixpoint run_calls (calls : list level_call) (st : state) : state :=
  match calls with
  | [] => st
  | c :: rest =>
      run_calls rest
        (snd (makeLevel fn_source user_call (call_level c) (call_this c)
                (call_args c) (call_env c) st))
  end.

(** The prefix is the one the constructor computes from the segments. *)
Definition prefix_ok (L : Logger) : Prop :=
  _prefix L = array_join fn_source ": " (_namespace L ++ [VStr ""]).

(** The parent is stored, and the segments are the parent's, followed
    by at most one non-empty name. *)
Definition extends_parent (st : state) (L : Logger) : Prop :=
  match _parent L with
  | None => True
  | Some p =>
      exists P : Logger,
        loggers st !! p = Some P /\
        (_namespace L = _namespace P \/
         exists n : string, n <> "" /\ _namespace L = _namespace P ++ [VStr n])
  end.

Definition store_ok (st : state) : Prop :=
  forall (l : loc) (L : Logger),
    loggers st !! l = Some L -> prefix_ok L /\ extends_parent st L.

(** An engine whose [logObject] writes neither a [Log] object nor
    [Log.engine]. *)
Definition well_behaved (engine : value) : Prop :=
  forall (actuals : list value) (e : env) (st : state),
    loggers (snd (call user_call (get engine "logObject") actuals e st))
      = loggers st /\
    Log_engine (snd (call user_call (get engine "logObject") actuals e st))
      = Log_engine st.

(** One use of the module after it is loaded. *)
Inductive step (st : state) : state -> Prop :=
| step_new (namespace : value) :
    step st (snd (new_Log fn_source namespace st))
| step_sub (this : loc) (namespace : value) :
    step st (snd (sub fn_source this namespace st))
| step_setEngine (r : receiver) (engine : value) :
    step st (snd (setEngine r engine st))
| step_level (k : Z) (this : loc) (args : list value) (e : env) :
    well_behaved (Log_engine st) ->
    step st (snd (makeLevel fn_source user_call k this args e st)).

Inductive reachable : state -> Prop :=
| reachable_init (has_window has_console has_console_log : bool) :
    reachable
      (snd (module_init fn_source has_window has_console has_console_log))
| reachable_step (st st' : state) :
    reachable st -> step st st' -> reachable st'.

End Scripts.

(** ** More sample hosts *)

(** A user engine, a user function that answers 5 and one that throws
    what it is given as message; a function carrying a callable
    [logObject], as a class with a static method does. *)
Definition static_engine : value :=
  VFun (FUser 1) [("logObject", VFun (FUser 0) [])].

Definition user_engine : value :=
  VObj [("logObject", VFun (FUser 0) [])].

Definition answering_user_call (n : nat) (actuals : list value) (e : env)
    (st : state) : result value * state :=
  (Returned (VNum (NInt 5)), st).

Definition throwing_user_call (n : nat) (actuals : list value) (e : env)
    (st : state) : result value * state :=
  (Threw (UserError (argument 1 actuals)), st).

Definition browser_env : env :=
  {| now_iso := "2018-03-01T12:00:00.000Z";
     error_stack := VStr sample_stack;
     userAgent := Some "Mozilla/5.0 (X11; Linux x86_64) Gecko/20100101" |}.

Definition legacy_env : env :=
  {| now_iso := "2018-03-01T12:00:00.000Z";
     error_stack := VStr sample_stack;
     userAgent := Some "Mozilla/4.0 (compatible; MSIE 8.0; Windows NT 6.1)" |}.

Definition browser_state : state :=
  snd (module_init sample_source true true true).

Definition silent_state : state :=
  snd (module_init sample_source false false false).

(** * Properties *)

(** ** Text lemmas *)

Lemma append_cons (c : ascii) (s t : string) :
  String c s +:+ t = String c (s +:+ t).
Proof. reflexivity. Qed.

Lemma append_empty_r (s : string) : s +:+ "" = s.
Proof.
  induction s as [|c s IH]; [reflexivity|].
  now rewrite append_cons, IH.
Qed.

Lemma append_assoc (a b c : string) : (a +:+ b) +:+ c = a +:+ b +:+ c.
Proof.
  induction a as [|x a IH]; [reflexivity|].
  now rewrite !append_cons, IH.
Qed.

Lemma join_by_cons2 {A : Type} (f : A -> string) (sep : string)
    (x y : A) (r : list A) :
  join_by f sep (x :: y :: r) = f x +:+ sep +:+ join_by f sep (y :: r).
Proof. reflexivity. Qed.

Lemma eqb_empty_false (s : string) : s <> "" -> String.eqb s "" = false.
Proof. intros H. now apply String.eqb_neq. Qed.

(** ** The model on small inputs *)

Example split_lines_keeps_empty_lines :
  split_lines ("a" +:+ newline +:+ newline +:+ "b" +:+ newline)
    = ["a"; ""; "b"; ""].
Proof. reflexivity. Qed.

Example trim_start_frame : trim_start "    at main (app.js:3:7)" = "at main (app.js:3:7)".
Proof. reflexivity. Qed.

Example to_string_nested :
  to_string sample_source
    (VArr [VNum (NInt (-12)); VNull; VArr [VStr "x"; VBool true]; VObj []])
    = "-12,,x,true,[object Object]".
Proof. reflexivity. Qed.

Example JSON_stringify_nested :
  JSON_stringify (VArr [VNum (NInt 1); VStr "a"; VUndefined; VArr []]) =
  VStr ("[" +:+ newline +:+ "  1," +:+ newline
          +:+ "  " +:+ dquote +:+ "a" +:+ dquote +:+ "," +:+ newline
          +:+ "  null," +:+ newline +:+ "  []" +:+ newline +:+ "]").
Proof. reflexivity. Qed.

Example module_init_exports :
  fst (module_init sample_source false true true)
    = {| root := 0; internal := Returned 1 |} /\
  Log_engine (snd (module_init sample_source true true true))
    = engines_interactive /\
  Log_engine (snd (module_init sample_source false false false))
    = engines_none.
Proof. repeat split. Qed.

Section Properties.

Variable fn_source : fn -> string.
Variable user_call : nat -> list value -> env -> state -> result value * state.

(** ** Prefix of a logger *)

(** Joining string segments followed by one empty entry is the join of
    the segments followed by one more separator. *)
Lemma array_join_segments (sep : string) (x : string) (S : list string) :
  array_join fn_source sep (List.map VStr (x :: S) ++ [VStr ""]) =
  String.concat sep (x :: S) +:+ sep.
Proof.
  revert x. induction S as [|y S IH]; intros x.
  - change (array_join fn_source sep (List.map VStr [x] ++ [VStr ""]))
      with (x +:+ sep +:+ "").
    now rewrite append_empty_r.
  - change (array_join fn_source sep (List.map VStr (x :: y :: S) ++ [VStr ""]))
      with (x +:+ sep +:+
            array_join fn_source sep (List.map VStr (y :: S) ++ [VStr ""])).
    rewrite IH.
    change (String.concat sep (x :: y :: S))
      with (x +:+ sep +:+ String.concat sep (y :: S)).
    now rewrite !append_assoc.
Qed.

(** C1. A logger built from the segments [S] has as prefix the segments
    joined with ": " and one trailing ": ", and the empty prefix when
    [S] is empty; its segment sequence is [S] itself. *)
Theorem Log_prefix_of_segments (S : list string) :
  _namespace (Log fn_source (VArr (List.map VStr S))) = List.map VStr S /\
  _prefix (Log fn_source (VArr (List.map VStr S))) =
    match S with
    | [] => ""
    | _ :: _ => String.concat ": " S +:+ ": "
    end.
Proof.
  split; [reflexivity|].
  destruct S as [|x S]; [reflexivity|].
  unfold Log. cbn [truthy negb _prefix].
  apply array_join_segments.
Qed.

Example Log_prefix_examples :
  _prefix (Log fn_source (VArr [])) = "" /\
  _prefix (Log fn_source (VArr [VStr "server"])) = "server: " /\
  _prefix (Log fn_source (VArr [VStr "server"; VStr "http"])) = "server: http: ".
Proof. repeat split. Qed.

(** ** Construction *)

(** C6, as the code has it. A non-empty string [s] gives the one-element
    sequence [s]; an absent argument gives the empty sequence; an array
    is taken as it is. *)
Theorem Log_segments_of_argument (s : string) (items : list value) :
  s <> "" ->
  _namespace (Log fn_source (VStr s)) = [VStr s] /\
  _namespace (Log fn_source VUndefined) = [] /\
  _namespace (Log fn_source (VArr items)) = items.
Proof.
  intros Hs. repeat split.
  unfold Log. cbn [truthy].
  rewrite (eqb_empty_false s Hs). reflexivity.
Qed.

(** C10. A falsy argument [v] builds the same object as no argument:
    no segment and the empty prefix. A truthy argument [w] that is no
    array is wrapped after [String()], which leaves a string as it is. *)
Theorem Log_falsy_and_wrapping (v w : value) :
  truthy v = false ->
  truthy w = true ->
  isArray w = false ->
  (Log fn_source v = Log fn_source VUndefined /\
   _namespace (Log fn_source v) = [] /\
   _prefix (Log fn_source v) = "") /\
  _namespace (Log fn_source w) = [VStr (to_string fn_source w)] /\
  (forall s : string, w = VStr s -> _namespace (Log fn_source w) = [w]).
Proof.
  intros Hv Hw Ha.
  assert (Hwrap : _namespace (Log fn_source w) = [VStr (to_string fn_source w)]).
  { unfold Log. rewrite Hw. destruct w; try reflexivity; discriminate. }
  repeat split; try (unfold Log; now rewrite Hv).
  - exact Hwrap.
  - intros s ->. exact Hwrap.
Qed.

(** ** Sub-loggers *)

Lemma fresh_unused (st : state) : loggers st !! fresh (dom (loggers st)) = None.
Proof. apply not_elem_of_dom, is_fresh. Qed.

(** What [sub] returns and stores: a new location, holding the copy of
    the segments with the pushed name, linked to its parent. *)
Lemma sub_returns (st : state) (this : loc) (L : Logger) (namespace : value) :
  loggers st !! this = Some L ->
  sub fn_source this namespace st =
    (Returned (fresh (dom (loggers st))),
     set_logger (fresh (dom (loggers st))) (child_of fn_source this L namespace) st).
Proof.
  intros HL. unfold sub. rewrite HL. fold (pushed namespace).
  unfold new_Log, _setParent.
  cbn [loggers set_logger].
  rewrite lookup_insert_eq.
  unfold set_logger. cbn [loggers Log_engine console].
  rewrite insert_insert_eq.
  reflexivity.
Qed.

Lemma pushed_nonempty_string (n : string) : n <> "" -> pushed (VStr n) = [VStr n].
Proof.
  intros Hn. unfold pushed. cbn [truthy typeof].
  now rewrite (eqb_empty_false n Hn).
Qed.

(** C2, as the code has it. For non-empty names [n] and [m], [sub n]
    stores a logger whose segments are those of [L] followed by [n], and
    [sub m] on it one whose segments are those of [L] followed by [n]
    and [m]; from a root logger the message handed to the engine is
    [n ": " m ": "] put directly before the logged text. *)
Theorem sub_appends_segment (st : state) (this : loc) (L : Logger)
    (n m : string) :
  loggers st !! this = Some L ->
  n <> "" ->
  m <> "" ->
  exists (l1 : loc) (st1 : state) (L1 : Logger)
         (l2 : loc) (st2 : state) (L2 : Logger),
    sub fn_source this (VStr n) st = (Returned l1, st1) /\
    loggers st1 !! l1 = Some L1 /\
    _namespace L1 = _namespace L ++ [VStr n] /\
    sub fn_source l1 (VStr m) st1 = (Returned l2, st2) /\
    loggers st2 !! l2 = Some L2 /\
    _namespace L2 = _namespace L ++ [VStr n; VStr m] /\
    (_namespace L = [] ->
     forall (msg : string) (extras : list value),
       prefixed fn_source L2 (VStr msg :: extras) =
       n +:+ ": " +:+ m +:+ ": " +:+ msg).
Proof.
  intros HL Hn Hm.
  pose (l1 := fresh (dom (loggers st))).
  pose (st1 := set_logger l1 (child_of fn_source this L (VStr n)) st).
  assert (H1 : loggers st1 !! l1 = Some (child_of fn_source this L (VStr n))).
  { unfold st1. cbn [loggers set_logger]. apply lookup_insert_eq. }
  pose (l2 := fresh (dom (loggers st1))).
  pose (st2 := set_logger l2 (child_of fn_source l1 (child_of fn_source this L (VStr n)) (VStr m)) st1).
  exists l1, st1, (child_of fn_source this L (VStr n)),
         l2, st2, (child_of fn_source l1 (child_of fn_source this L (VStr n)) (VStr m)).
  split; [exact (sub_returns st this L (VStr n) HL)|].
  split; [exact H1|].
  split; [cbn [_namespace child_of]; now rewrite pushed_nonempty_string|].
  split; [exact (sub_returns st1 l1 _ (VStr m) H1)|].
  split; [unfold st2; cbn [loggers set_logger]; apply lookup_insert_eq|].
  split.
  - cbn [_namespace child_of].
    rewrite !pushed_nonempty_string by assumption.
    now rewrite <- app_assoc.
  - intros Hroot msg extras.
    unfold prefixed. cbn [_prefix _namespace child_of].
    rewrite !pushed_nonempty_string by assumption.
    rewrite Hroot.
    change (array_join fn_source ": " ((([] ++ [VStr n]) ++ [VStr m]) ++ [VStr ""]))
      with (n +:+ ": " +:+ m +:+ ": " +:+ "").
    change (to_string fn_source (argument 0 (VStr msg :: extras))) with msg.
    now rewrite append_empty_r, !append_assoc.
Qed.

(** ** Engine registry *)

Lemma rejected_not_accepted (v : value) :
  engine_rejected v = negb (engine_accepted v).
Proof.
  unfold engine_rejected, engine_accepted.
  destruct v; cbn; try reflexivity; now destruct (has_callable _ _).
Qed.

Lemma setEngine_accepted (r : receiver) (e : value) (st : state) :
  engine_accepted e = true ->
  setEngine r e st = (Returned VUndefined, set_engine e st).
Proof.
  unfold engine_accepted, has_callable, setEngine.
  destruct e; cbn; try discriminate.
  destruct (assoc "logObject" fields); cbn; try discriminate.
  reflexivity.
Qed.

Lemma setEngine_rejected (r : receiver) (e : value) (st : state) :
  engine_rejected e = true ->
  exists err : js_error, setEngine r e st = (Threw err, st).
Proof.
  unfold engine_rejected, has_callable, setEngine.
  destruct e; cbn; try discriminate; eauto.
  destruct (assoc "logObject" fields); cbn; try discriminate; eauto.
Qed.

(** C3, as the code has it. [setEngine] raises, and leaves the state
    as it was, for null, for a primitive, for a function whatever it
    carries, and for an object without a callable [logObject]; for an
    object that is no function and has a callable [logObject] it
    returns and that object is the active engine. *)
Theorem setEngine_contract (r : receiver) (bad good : value) (st : state) :
  engine_rejected bad = true ->
  engine_accepted good = true ->
  (exists err : js_error, setEngine r bad st = (Threw err, st)) /\
  setEngine r good st = (Returned VUndefined, set_engine good st) /\
  getEngine OnLog (set_engine good st) = good /\
  loggers (set_engine good st) = loggers st /\
  console (set_engine good st) = console st.
Proof.
  intros Hbad Hgood.
  split; [now apply setEngine_rejected|].
  split; [now apply setEngine_accepted|].
  repeat split.
Qed.

(** C8. The two forms of [getEngine] and of [setEngine], on [Log] and
    on an instance, are the same operations on the one variable
    [Log.engine]; an instance holds no engine of its own. *)
Theorem engine_accessors_shared (e : value) (l : loc) (st : state) :
  setEngine OnLog e st = setEngine (OnInstance l) e st /\
  getEngine OnLog st = getEngine (OnInstance l) st /\
  getEngine (OnInstance l) st = Log_engine st /\
  (forall r r' : receiver,
     getEngine r' (snd (setEngine r e st)) =
     if engine_accepted e then e else Log_engine st) /\
  (forall r : receiver, loggers (snd (setEngine r e st)) = loggers st).
Proof.
  repeat split.
  - intros r r'. destruct (engine_accepted e) eqn:He.
    + now rewrite (setEngine_accepted r e st He).
    + assert (Hr : engine_rejected e = true)
        by (rewrite rejected_not_accepted, He; reflexivity).
      destruct (setEngine_rejected r e st Hr) as [err ->]. reflexivity.
  - intros r. destruct (engine_accepted e) eqn:He.
    + now rewrite (setEngine_accepted r e st He).
    + assert (Hr : engine_rejected e = true)
        by (rewrite rejected_not_accepted, He; reflexivity).
      destruct (setEngine_rejected r e st Hr) as [err ->]. reflexivity.
Qed.

(** ** Levels and routing *)

(** ** The basic engine *)

Lemma logMessage_routes (k : Z) (s : stream) (items : list value) (st : state) :
  stream_of_level k = Some s ->
  logMessage (VNum (NInt k)) items st = console_write s items st.
Proof.
  unfold stream_of_level, logMessage.
  destruct k as [|p|p]; try discriminate.
  destruct p as [p|p|]; try destruct p as [p|p|]; try destruct p as [p|p|];
    try discriminate; intros [= <-]; reflexivity.
Qed.

Lemma makeLevel_basic (k : Z) (this : loc) (L : Logger) (args : list value)
    (e : env) (st : state) (where_ : string) :
  Log_engine st = engines_basic ->
  loggers st !! this = Some L ->
  location (error_stack e) = Returned where_ ->
  makeLevel fn_source user_call k this args e st =
    (Returned VUndefined,
     logMessage (VNum (NInt k))
       (heading e (prefixed fn_source L args) where_
          ++ List.map JSON_stringify (tl args)) st).
Proof.
  intros He HL Hw.
  unfold makeLevel. rewrite HL.
  unfold dispatch. rewrite He.
  cbn [engines_basic get assoc String.eqb Ascii.eqb Bool.eqb call].
  unfold basic_logObject. cbn [argument nth].
  unfold emit, getLogInfo. rewrite Hw. reflexivity.
Qed.

Lemma makeLevel_user (k : Z) (this : loc) (L : Logger) (args : list value)
    (e : env) (st : state) (n : nat) (ms : list (string * value)) :
  loggers st !! this = Some L ->
  get (Log_engine st) "logObject" = VFun (FUser n) ms ->
  makeLevel fn_source user_call k this args e st =
  discard_value (user_call n (handed fn_source k L args) e st).
Proof.
  intros HL Hget. unfold makeLevel. rewrite HL. unfold dispatch.
  destruct (Log_engine st) eqn:He; cbn [get] in Hget; try discriminate;
    cbn [get]; now rewrite Hget.
Qed.

(** C4. [debug], [info], [warn] and [error] hand the engine the level
    numbers 1, 2, 3 and 4: a user engine receives that number as first
    argument of [logObject], and under the basic engine the call is
    written with [console.log] for [debug] and [info], [console.warn]
    for [warn] and [console.error] for [error]; [logMessage] picks the
    stream by that number. *)
Theorem levels_and_routing (this : loc) (L : Logger) (args : list value)
    (e : env) (st : state) (where_ : string) (n : nat) :
  loggers st !! this = Some L ->
  location (error_stack e) = Returned where_ ->
  forallb plain args = true ->
  (debug fn_source user_call this args e (set_engine (user_engine_of n) st)
     = discard_value
         (user_call n (handed fn_source 1 L args) e
            (set_engine (user_engine_of n) st)) /\
   info fn_source user_call this args e (set_engine (user_engine_of n) st)
     = discard_value
         (user_call n (handed fn_source 2 L args) e
            (set_engine (user_engine_of n) st)) /\
   warn fn_source user_call this args e (set_engine (user_engine_of n) st)
     = discard_value
         (user_call n (handed fn_source 3 L args) e
            (set_engine (user_engine_of n) st)) /\
   error fn_source user_call this args e (set_engine (user_engine_of n) st)
     = discard_value
         (user_call n (handed fn_source 4 L args) e
            (set_engine (user_engine_of n) st))) /\
  (debug fn_source user_call this args e (set_engine engines_basic st)
     = (Returned VUndefined,
        console_write ConsoleLog
          (heading e (prefixed fn_source L args) where_
             ++ List.map JSON_stringify (tl args))
          (set_engine engines_basic st)) /\
   info fn_source user_call this args e (set_engine engines_basic st)
     = (Returned VUndefined,
        console_write ConsoleLog
          (heading e (prefixed fn_source L args) where_
             ++ List.map JSON_stringify (tl args))
          (set_engine engines_basic st)) /\
   warn fn_source user_call this args e (set_engine engines_basic st)
     = (Returned VUndefined,
        console_write ConsoleWarn
          (heading e (prefixed fn_source L args) where_
             ++ List.map JSON_stringify (tl args))
          (set_engine engines_basic st)) /\
   error fn_source user_call this args e (set_engine engines_basic st)
     = (Returned VUndefined,
        console_write ConsoleError
          (heading e (prefixed fn_source L args) where_
             ++ List.map JSON_stringify (tl args))
          (set_engine engines_basic st))) /\
  (forall (items : list value) (st' : state),
     logMessage (VNum (NInt 1)) items st' = console_write ConsoleLog items st' /\
     logMessage (VNum (NInt 2)) items st' = console_write ConsoleLog items st' /\
     logMessage (VNum (NInt 3)) items st' = console_write ConsoleWarn items st' /\
     logMessage (VNum (NInt 4)) items st' = console_write ConsoleError items st').
Proof.
  intros HL Hw _.
  split; [|split].
  - repeat split;
      apply (makeLevel_user _ this L args e _ n []); solve [exact HL | reflexivity].
  - repeat split; unfold debug, info, warn, error;
      rewrite (makeLevel_basic _ this L args e (set_engine engines_basic st)
                 where_ eq_refl HL Hw);
      reflexivity.
  - intros items st'. repeat split.
Qed.

Lemma JSON_stringify_text (x : value) :
  x <> VUndefined ->
  is_function x = false ->
  is_text (JSON_stringify x) = true.
Proof.
  intros Hu Hf. unfold JSON_stringify.
  destruct x as [| |b|n|t|items|fields|f ms]; cbn [json_property];
    try reflexivity.
  - contradiction.
  - now destruct b.
  - now destruct n.
  - discriminate.
Qed.

(** C7, as the code has it. With the basic engine active, the
    location found and arguments that are plain data, a level method of
    number [k] writes once, on the stream of [k], the bracketed
    timestamp, the prefixed message, "--", the location, a line feed
    and then [JSON.stringify(x, null, 2)] of each extra [x]; that is a
    text for every such [x] other than undefined and functions;
    [{code: 7}] prints over three lines, indented by two blanks. *)
Theorem basic_engine_output (k : Z) (s : stream) (this : loc) (L : Logger)
    (args : list value) (e : env) (st : state) (where_ : string) :
  Log_engine st = engines_basic ->
  loggers st !! this = Some L ->
  location (error_stack e) = Returned where_ ->
  stream_of_level k = Some s ->
  forallb plain args = true ->
  makeLevel fn_source user_call k this args e st =
    (Returned VUndefined,
     console_write s
       (VStr ("[" +:+ now_iso e +:+ "]")
          :: VStr (prefixed fn_source L args)
          :: VStr "--" :: VStr where_ :: VStr newline
          :: List.map JSON_stringify (tl args)) st) /\
  (forall x : value,
     In x (tl args) -> x <> VUndefined -> is_function x = false ->
     is_text (JSON_stringify x) = true) /\
  JSON_stringify (VObj [("code", VNum (NInt 7))]) =
    VStr ("{" +:+ newline +:+ "  " +:+ dquote +:+ "code" +:+ dquote
            +:+ ": 7" +:+ newline +:+ "}").
Proof.
  intros He HL Hw Hs _. split; [|split].
  - rewrite (makeLevel_basic k this L args e st where_ He HL Hw).
    now rewrite (logMessage_routes k s _ st Hs).
  - intros x _. apply JSON_stringify_text.
  - reflexivity.
Qed.

(** ** Call-site location *)

Lemma location_unsupported (stack : value) :
  is_text stack = false -> location stack = Returned "".
Proof. destruct stack; cbn; try reflexivity; discriminate. Qed.

Lemma location_short_stack (text : string) :
  length (split_lines text) <= 4 ->
  location (VStr text) = Threw TypeError.
Proof.
  intros Hlen. unfold location.
  destruct (nth_error (split_lines text) 4) eqn:Hn; [|reflexivity].
  assert (Hsome : nth_error (split_lines text) 4 <> None) by congruence.
  apply nth_error_Some in Hsome. lia.
Qed.

(** ** Frame of the level methods *)

Lemma logMessage_loggers (level : value) (items : list value) (st : state) :
  loggers (logMessage level items st) = loggers st.
Proof.
  unfold logMessage.
  repeat match goal with
         | |- context [match ?x with _ => _ end] => destruct x
         end; reflexivity.
Qed.

Lemma emit_loggers (e : env) (level message : value) (items : list value)
    (st : state) :
  loggers (snd (emit e level message items st)) = loggers st.
Proof.
  unfold emit. destruct (getLogInfo e message items); cbn [snd];
    [apply logMessage_loggers | reflexivity].
Qed.

Lemma basic_keeps_loggers : keeps_loggers user_call engines_basic.
Proof.
  intros actuals e st. cbn [engines_basic get assoc String.eqb Ascii.eqb Bool.eqb call].
  unfold basic_logObject.
  destruct (argument 2 actuals); try reflexivity. apply emit_loggers.
Qed.

Lemma interactive_keeps_loggers : keeps_loggers user_call engines_interactive.
Proof.
  intros actuals e st.
  cbn [engines_interactive get assoc String.eqb Ascii.eqb Bool.eqb call].
  unfold interactive_logObject.
  destruct (argument 2 actuals) as [| | | | |items| |]; try reflexivity.
  destruct items, (userAgent e); try reflexivity; apply emit_loggers.
Qed.

Lemma none_keeps_loggers : keeps_loggers user_call engines_none.
Proof. intros actuals e st. reflexivity. Qed.

Lemma dispatch_loggers (k : Z) (message : string) (extras : list value)
    (e : env) (st : state) :
  keeps_loggers user_call (Log_engine st) ->
  loggers (snd (dispatch user_call k message extras e st)) = loggers st.
Proof.
  intros Hk. unfold dispatch.
  destruct (Log_engine st) eqn:He; try reflexivity; apply Hk.
Qed.

Lemma snd_discard_value (r : result value * state) :
  snd (discard_value r) = snd r.
Proof. now destruct r as [[v|err] st]. Qed.

(** C9. While the active engine writes no [Log] object, as none of
    the three engines of the module does, a level method leaves every
    stored logger as it was, the receiver with its segments and prefix
    among them, and a further call on the receiver calls the engine
    with a message of the same prefix; nothing but the value the engine
    returns is changed on the way back. *)
Theorem level_call_keeps_logger (k : Z) (this : loc) (L : Logger)
    (args : list value) (e : env) (st : state) :
  loggers st !! this = Some L ->
  keeps_loggers user_call (Log_engine st) ->
  loggers (snd (makeLevel fn_source user_call k this args e st)) = loggers st /\
  loggers (snd (makeLevel fn_source user_call k this args e st)) !! this
    = Some L /\
  (forall (args' : list value) (e' : env),
     makeLevel fn_source user_call k this args' e'
       (snd (makeLevel fn_source user_call k this args e st)) =
     discard_value
       (dispatch user_call k
          (_prefix L +:+ to_string fn_source (argument 0 args')) (tl args') e'
          (snd (makeLevel fn_source user_call k this args e st)))).
Proof.
  intros HL Hk.
  assert (Hsame : loggers (snd (makeLevel fn_source user_call k this args e st))
                  = loggers st).
  { unfold makeLevel. rewrite HL. rewrite snd_discard_value.
    now apply dispatch_loggers. }
  split; [exact Hsame|].
  split; [now rewrite Hsame|].
  intros args' e'.
  unfold makeLevel at 1. now rewrite Hsame, HL.
Qed.

End Properties.

(** * The module under Node.js: instances and counterexamples *)

Lemma node_root : loggers node_state !! root_loc = Some root_logger.
Proof. reflexivity. Qed.

Lemma node_engine : Log_engine node_state = engines_basic.
Proof. reflexivity. Qed.

(** Instance of C2: root, [sub('net')], [sub('tcp')]. *)
Lemma sub_appends_segment_witness :
  loggers node_state !! root_loc = Some root_logger /\
  "net" <> "" /\ "tcp" <> "" /\
  exists (l1 : loc) (st1 : state) (L1 : Logger)
         (l2 : loc) (st2 : state) (L2 : Logger),
    sub sample_source root_loc (VStr "net") node_state = (Returned l1, st1) /\
    loggers st1 !! l1 = Some L1 /\
    _namespace L1 = _namespace root_logger ++ [VStr "net"] /\
    sub sample_source l1 (VStr "tcp") st1 = (Returned l2, st2) /\
    loggers st2 !! l2 = Some L2 /\
    _namespace L2 = _namespace root_logger ++ [VStr "net"; VStr "tcp"] /\
    (_namespace root_logger = [] ->
     forall (msg : string) (extras : list value),
       prefixed sample_source L2 (VStr msg :: extras) =
       "net" +:+ ": " +:+ "tcp" +:+ ": " +:+ msg).
Proof.
  split; [reflexivity|].
  split; [discriminate|].
  split; [discriminate|].
  apply (sub_appends_segment sample_source node_state root_loc root_logger
           "net" "tcp"); [reflexivity | discriminate | discriminate].
Defined.

(** C2 fails for the empty name: [sub('')] on the root logger stores a
    logger without segments, not one with the segment [""]. *)
Lemma sub_empty_name_counterexample :
  ~ (exists (l : loc) (st' : state) (child : Logger),
       sub sample_source root_loc (VStr "") node_state = (Returned l, st') /\
       loggers st' !! l = Some child /\
       _namespace child = _namespace root_logger ++ [VStr ""]).
Proof.
  intros (l & st' & child & Hsub & Hl & Hns).
  rewrite (sub_returns sample_source node_state root_loc root_logger
             (VStr "") node_root) in Hsub.
  injection Hsub as <- <-.
  cbn [loggers set_logger] in Hl. rewrite lookup_insert_eq in Hl.
  injection Hl as <-. discriminate Hns.
Qed.

(** Instance of C3: null, a number, an object without [logObject]
    and a function are refused, the engine [none] is accepted. *)
Lemma setEngine_contract_witness :
  (engine_rejected VNull = true /\
   engine_rejected (VNum (NInt 3)) = true /\
   engine_rejected static_engine = true /\
   engine_rejected (VObj [("log", VFun (FUser 0) [])]) = true /\
   engine_accepted engines_none = true) /\
  ((exists err : js_error,
      setEngine OnLog VNull node_state = (Threw err, node_state)) /\
   (exists err : js_error,
      setEngine OnLog (VNum (NInt 3)) node_state = (Threw err, node_state)) /\
   (exists err : js_error,
      setEngine (OnInstance root_loc) (VObj [("log", VFun (FUser 0) [])])
        node_state = (Threw err, node_state))) /\
  setEngine OnLog engines_none node_state
    = (Returned VUndefined, set_engine engines_none node_state) /\
  getEngine OnLog (set_engine engines_none node_state) = engines_none.
Proof.
  split; [repeat split|].
  split; [repeat split|].
  - apply (setEngine_contract OnLog VNull engines_none node_state);
      reflexivity.
  - apply (setEngine_contract OnLog (VNum (NInt 3)) engines_none node_state);
      reflexivity.
  - apply (setEngine_contract (OnInstance root_loc)
             (VObj [("log", VFun (FUser 0) [])]) engines_none node_state);
      reflexivity.
  - split.
    + apply (setEngine_contract OnLog VNull engines_none node_state);
        reflexivity.
    + apply (setEngine_contract OnLog VNull engines_none node_state);
        reflexivity.
Defined.

(** C3 fails for a function that carries a callable [logObject], as a
    class with a static method does: it is an object with a callable
    [logObject], and [setEngine] refuses it at its first assertion,
    leaving the engine that was active. *)
Lemma setEngine_function_counterexample :
  is_object static_engine = true /\
  has_callable "logObject" static_engine = true /\
  setEngine OnLog static_engine node_state
    = (Threw AssertionError, node_state) /\
  getEngine OnLog (snd (setEngine OnLog static_engine node_state))
    = engines_basic.
Proof. repeat split. Qed.

(** Instance of C4: the four methods on the root logger, with one
    extra value. *)
Lemma levels_and_routing_witness :
  (loggers node_state !! root_loc = Some root_logger /\
   location (error_stack sample_env) = Returned "at main (app.js:3:7)" /\
   forallb plain [VStr "tick"; VNum (NInt 7)] = true) /\
  (debug sample_source throwing_user_call root_loc
     [VStr "tick"; VNum (NInt 7)] sample_env
     (set_engine (user_engine_of 0) node_state)
   = discard_value
       (throwing_user_call 0
          [VNum (NInt 1); VStr "tick"; VArr [VNum (NInt 7)]] sample_env
          (set_engine (user_engine_of 0) node_state)) /\
   error sample_source throwing_user_call root_loc
     [VStr "tick"; VNum (NInt 7)] sample_env
     (set_engine (user_engine_of 0) node_state)
   = discard_value
       (throwing_user_call 0
          [VNum (NInt 4); VStr "tick"; VArr [VNum (NInt 7)]] sample_env
          (set_engine (user_engine_of 0) node_state))) /\
  console (snd (warn sample_source throwing_user_call root_loc
                  [VStr "tick"; VNum (NInt 7)] sample_env
                  (set_engine engines_basic node_state)))
  = [ (ConsoleWarn,
       [ VStr "[2018-03-01T12:00:00.000Z]"; VStr "tick"; VStr "--";
         VStr "at main (app.js:3:7)"; VStr newline; VStr "7" ]) ].
Proof.
  split; [repeat split|].
  pose proof (levels_and_routing sample_source throwing_user_call root_loc
                root_logger [VStr "tick"; VNum (NInt 7)] sample_env node_state
                "at main (app.js:3:7)" 0 eq_refl eq_refl eq_refl)
    as [[Hdebug [_ [_ Herror]]] [[_ [_ [Hwarn _]]] _]].
  split; [split; [exact Hdebug | exact Herror]|].
  rewrite Hwarn. reflexivity.
Defined.

(** C5 fails on a stack text of four lines: the location read raises a
    TypeError, and so does [info] under the basic engine, with nothing
    written. *)
Theorem short_stack_raises :
  length (split_lines short_stack) = 4 /\
  location (error_stack short_env) = Threw TypeError /\
  info sample_source sample_user_call root_loc [VStr "started"]
       short_env node_state
    = (Threw TypeError, node_state).
Proof. repeat split. Qed.

(** Instance of C6. *)
Lemma Log_segments_of_argument_witness :
  "server" <> "" /\
  _namespace (Log sample_source (VStr "server")) = [VStr "server"] /\
  _namespace (Log sample_source VUndefined) = [] /\
  _namespace (Log sample_source (VArr [VStr "a"; VStr "b"]))
    = [VStr "a"; VStr "b"].
Proof.
  split; [discriminate|].
  apply (Log_segments_of_argument sample_source "server"
           [VStr "a"; VStr "b"]).
  discriminate.
Defined.

(** C6 fails for the empty string: it is a string, and the logger built
    from it has no segment. *)
Lemma Log_empty_string_counterexample :
  _namespace (Log sample_source (VStr "")) = [] /\
  _namespace (Log sample_source (VStr "")) <> [VStr ""].
Proof. split; [reflexivity | discriminate]. Qed.

(** Instance of C7: [.error('failed', {code: 7})] on the root logger. *)
Lemma basic_engine_output_witness :
  (Log_engine node_state = engines_basic /\
   loggers node_state !! root_loc = Some root_logger /\
   location (error_stack sample_env) = Returned "at main (app.js:3:7)" /\
   stream_of_level 4 = Some ConsoleError /\
   forallb plain [VStr "failed"; VObj [("code", VNum (NInt 7))]] = true) /\
  error sample_source sample_user_call root_loc
        [VStr "failed"; VObj [("code", VNum (NInt 7))]]
        sample_env node_state =
    (Returned VUndefined,
     console_write ConsoleError
       [ VStr "[2018-03-01T12:00:00.000Z]"; VStr "failed"; VStr "--";
         VStr "at main (app.js:3:7)"; VStr newline;
         VStr ("{" +:+ newline +:+ "  " +:+ dquote +:+ "code" +:+ dquote
                 +:+ ": 7" +:+ newline +:+ "}") ]
       node_state).
Proof.
  split; [repeat split|].
  apply (basic_engine_output sample_source sample_user_call 4 ConsoleError
           root_loc root_logger
           [VStr "failed"; VObj [("code", VNum (NInt 7))]]
           sample_env node_state "at main (app.js:3:7)");
    reflexivity.
Defined.

(** C7 fails for the extra value undefined: the basic engine writes it
    as it came, and it is no text. *)
Lemma basic_engine_undefined_counterexample :
  info sample_source sample_user_call root_loc
       [VStr "state"; VUndefined] sample_env node_state =
    (Returned VUndefined,
     console_write ConsoleLog
       [ VStr "[2018-03-01T12:00:00.000Z]"; VStr "state"; VStr "--";
         VStr "at main (app.js:3:7)"; VStr newline; VUndefined ]
       node_state) /\
  is_text VUndefined = false.
Proof. split; reflexivity. Qed.

(** Instance of C9: [info] on the root logger under the basic engine. *)
Lemma level_call_keeps_logger_witness :
  (loggers node_state !! root_loc = Some root_logger /\
   keeps_loggers sample_user_call (Log_engine node_state)) /\
  loggers (snd (info sample_source sample_user_call root_loc
                  [VStr "ready"] sample_env node_state)) !! root_loc
    = Some root_logger.
Proof.
  split; [split; [reflexivity | exact (basic_keeps_loggers sample_user_call)]|].
  apply (level_call_keeps_logger sample_source sample_user_call 2 root_loc
           root_logger [VStr "ready"] sample_env node_state);
    [reflexivity | exact (basic_keeps_loggers sample_user_call)].
Defined.

(** Instance of C10: the empty string, zero and undefined; the number 5
    is wrapped as the segment "5". *)
Lemma Log_falsy_and_wrapping_witness :
  (truthy (VStr "") = false /\ truthy (VNum (NInt 0)) = false /\
   truthy VUndefined = false /\ truthy (VNum (NInt 5)) = true /\
   isArray (VNum (NInt 5)) = false) /\
  Log sample_source (VStr "") = Log sample_source VUndefined /\
  Log sample_source (VNum (NInt 0)) = Log sample_source VUndefined /\
  _prefix (Log sample_source VUndefined) = "" /\
  _namespace (Log sample_source (VNum (NInt 5))) = [VStr "5"].
Proof.
  split; [repeat split|].
  split; [|split; [|split]].
  - apply (Log_falsy_and_wrapping sample_source (VStr "") (VNum (NInt 5)));
      reflexivity.
  - apply (Log_falsy_and_wrapping sample_source (VNum (NInt 0))
             (VNum (NInt 5))); reflexivity.
  - apply (Log_falsy_and_wrapping sample_source VUndefined (VNum (NInt 5)));
      reflexivity.
  - apply (Log_falsy_and_wrapping sample_source VUndefined (VNum (NInt 5)));
      reflexivity.
Defined.

(** * Further properties of the module *)

Section SubLoggers.

Variable fn_source : fn -> string.

Lemma join_by_cons_nonempty {A : Type} (f : A -> string) (sep : string)
    (x : A) (r : list A) :
  r <> [] -> join_by f sep (x :: r) = f x +:+ sep +:+ join_by f sep r.
Proof. destruct r; [congruence | reflexivity]. Qed.

(** One more name at the end of the segments puts the name and one
    separator at the end of the prefix. *)
Lemma array_join_snoc (sep n : string) (ns : list value) :
  array_join fn_source sep ((ns ++ [VStr n]) ++ [VStr ""]) =
  array_join fn_source sep (ns ++ [VStr ""]) +:+ n +:+ sep.
Proof.
  unfold array_join. induction ns as [|x ns IH].
  - change (n +:+ sep +:+ "" = "" +:+ n +:+ sep).
    now rewrite append_empty_r.
  - cbn [app].
    rewrite !join_by_cons_nonempty by (now destruct ns).
    rewrite IH. now rewrite !append_assoc.
Qed.

Lemma pushed_cases (namespace : value) :
  pushed namespace = [] \/
  exists n : string, n <> "" /\ namespace = VStr n /\ pushed namespace = [VStr n].
Proof.
  unfold pushed.
  destruct namespace as [| |b|k|s|items|fields|f ms]; cbn; auto;
    try (destruct b; auto); try (destruct k as [z| |]; auto;
                                 destruct (negb _); auto).
  destruct (String.eqb s "") eqn:Hs; cbn; auto.
  right. exists s. apply String.eqb_neq in Hs. auto.
Qed.

Lemma set_logger_other (l l' : loc) (L : Logger) (st : state) :
  l <> l' -> loggers (set_logger l L st) !! l' = loggers st !! l'.
Proof. intros Hne. cbn [loggers set_logger]. now apply lookup_insert_ne. Qed.

Lemma stored_not_fresh (st : state) (l : loc) (L : Logger) :
  loggers st !! l = Some L -> fresh (dom (loggers st)) <> l.
Proof.
  intros HL Heq. pose proof (fresh_unused st) as Hf.
  rewrite Heq in Hf. congruence.
Qed.

(** [sub] without a usable name: undefined, the empty string, or any
    value that is no string, an array of names among them. The logger
    returned is a new object with the segments of the receiver, the
    prefix computed from them, and the receiver as parent; the receiver
    is stored as before. *)
Theorem sub_without_name (st : state) (this : loc) (L : Logger)
    (namespace : value) :
  loggers st !! this = Some L ->
  truthy namespace && String.eqb (typeof namespace) "string" = false ->
  exists (l : loc) (st' : state),
    sub fn_source this namespace st = (Returned l, st') /\
    l <> this /\
    loggers st' !! l =
      Some {| _namespace := _namespace L;
              _prefix := array_join fn_source ": " (_namespace L ++ [VStr ""]);
              _parent := Some this |} /\
    loggers st' !! this = Some L.
Proof.
  intros HL Hno.
  exists (fresh (dom (loggers st))),
         (set_logger (fresh (dom (loggers st)))
            (child_of fn_source this L namespace) st).
  split; [now apply sub_returns|].
  split; [now apply (stored_not_fresh st this L)|].
  split.
  - cbn [loggers set_logger]. rewrite lookup_insert_eq.
    unfold child_of, pushed. rewrite Hno. now rewrite app_nil_r.
  - rewrite set_logger_other by (now apply (stored_not_fresh st this L)).
    exact HL.
Qed.

(** [sub] writes one new object and nothing else: the location it
    returns was unused, every logger stored before is stored unchanged,
    the store has one entry more, and the engine and the console are
    as before. *)
Theorem sub_frame (st : state) (this : loc) (L : Logger) (namespace : value) :
  loggers st !! this = Some L ->
  exists (l : loc) (st' : state),
    sub fn_source this namespace st = (Returned l, st') /\
    loggers st !! l = None /\
    (forall (l' : loc) (L' : Logger),
       loggers st !! l' = Some L' -> loggers st' !! l' = Some L') /\
    size (loggers st') = S (size (loggers st)) /\
    Log_engine st' = Log_engine st /\
    console st' = console st.
Proof.
  intros HL.
  exists (fresh (dom (loggers st))),
         (set_logger (fresh (dom (loggers st)))
            (child_of fn_source this L namespace) st).
  split; [now apply sub_returns|].
  split; [apply fresh_unused|].
  split.
  - intros l' L' HL'.
    rewrite set_logger_other by (now apply (stored_not_fresh st l' L')).
    exact HL'.
  - split; [|split; reflexivity].
    cbn [loggers set_logger].
    apply map_size_insert_None, fresh_unused.
Qed.

(** The prefix of a sub-logger is the prefix of its parent followed by
    the name and ": ", so that it logs [msg] as the parent's prefix,
    the name, ": " and [msg] (the example of the source: after
    [sub('server')], 'server: connection successful'). *)
Theorem sub_prefix_extends (st : state) (this : loc) (L : Logger)
    (n : string) :
  loggers st !! this = Some L ->
  prefix_ok fn_source L ->
  n <> "" ->
  exists (l : loc) (st' : state) (child : Logger),
    sub fn_source this (VStr n) st = (Returned l, st') /\
    loggers st' !! l = Some child /\
    _prefix child = _prefix L +:+ n +:+ ": " /\
    (forall (msg : string) (extras : list value),
       prefixed fn_source child (VStr msg :: extras) =
       _prefix L +:+ n +:+ ": " +:+ msg).
Proof.
  intros HL Hp Hn.
  assert (Hchild : _prefix (child_of fn_source this L (VStr n))
                   = _prefix L +:+ n +:+ ": ").
  { cbn [_prefix child_of]. rewrite (pushed_nonempty_string n Hn).
    rewrite array_join_snoc. now rewrite <- Hp. }
  exists (fresh (dom (loggers st))),
         (set_logger (fresh (dom (loggers st)))
            (child_of fn_source this L (VStr n)) st),
         (child_of fn_source this L (VStr n)).
  split; [now apply sub_returns|].
  split; [cbn [loggers set_logger]; apply lookup_insert_eq|].
  split; [exact Hchild|].
  intros msg extras. unfold prefixed. rewrite Hchild.
  change (to_string fn_source (argument 0 (VStr msg :: extras))) with msg.
  now rewrite !append_assoc.
Qed.

(** A chain of [sub] calls with non-empty names ends at a stored logger
    whose segments are those of the first receiver followed by the
    names, in order, and whose prefix is computed from these segments
    when the first receiver's is. *)
Theorem sub_path_segments (names : list string) (st : state) (this : loc)
    (L : Logger) :
  loggers st !! this = Some L ->
  Forall (fun n : string => n <> "") names ->
  exists (l : loc) (st' : state) (L' : Logger),
    sub_path fn_source this (List.map VStr names) st = (Returned l, st') /\
    loggers st' !! l = Some L' /\
    _namespace L' = _namespace L ++ List.map VStr names /\
    (prefix_ok fn_source L -> prefix_ok fn_source L').
Proof.
  revert st this L. induction names as [|n names IH]; intros st this L HL Hne.
  - exists this, st, L. cbn [sub_path List.map].
    rewrite app_nil_r. auto.
  - inversion Hne as [|? ? Hn Hrest]; subst.
    pose (l1 := fresh (dom (loggers st))).
    pose (L1 := child_of fn_source this L (VStr n)).
    pose (st1 := set_logger l1 L1 st).
    assert (H1 : loggers st1 !! l1 = Some L1)
      by (unfold st1; cbn [loggers set_logger]; apply lookup_insert_eq).
    destruct (IH st1 l1 L1 H1 Hrest) as (l & st' & L' & Hpath & Hl & Hns & Hpre).
    exists l, st', L'.
    split.
    { cbn [sub_path List.map].
      rewrite (sub_returns fn_source st this L (VStr n) HL). exact Hpath. }
    split; [exact Hl|].
    split.
    { rewrite Hns. unfold L1. cbn [_namespace child_of List.map].
      rewrite (pushed_nonempty_string n Hn). now rewrite <- app_assoc. }
    intros _. apply Hpre. reflexivity.
Qed.

Lemma array_join_trailing (sep : string) (x : value) (ns : list value) :
  array_join fn_source sep ((x :: ns) ++ [VStr ""]) =
  array_join fn_source sep (x :: ns) +:+ sep.
Proof.
  unfold array_join. revert x. induction ns as [|y ns IH]; intros x.
  - change (join_item fn_source x +:+ sep +:+ ""
            = join_item fn_source x +:+ sep).
    now rewrite append_empty_r.
  - change (((x :: y :: ns) ++ [VStr ""])) with (x :: ((y :: ns) ++ [VStr ""])).
    rewrite join_by_cons_nonempty by discriminate.
    rewrite IH. rewrite (join_by_cons_nonempty _ _ x (y :: ns)) by discriminate.
    now rewrite !append_assoc.
Qed.

(** Whatever the constructor is given (nothing, a string, a number,
    an array of any values), the prefix it stores is empty when there
    is no segment, and otherwise the segments joined with ": " as
    [Array.prototype.join] does, followed by one ": ". *)
Theorem Log_prefix_any_argument (namespace : value) :
  _prefix (Log fn_source namespace) =
  match _namespace (Log fn_source namespace) with
  | [] => ""
  | x :: ns => array_join fn_source ": " (x :: ns) +:+ ": "
  end.
Proof.
  unfold Log. cbn [_prefix _namespace].
  destruct (if negb (truthy namespace) then []
            else match namespace with
                 | VArr items => items
                 | _ => [VStr (to_string fn_source namespace)]
                 end) as [|x ns]; [reflexivity|].
  apply array_join_trailing.
Qed.

End SubLoggers.

Section Invariants.

Variable fn_source : fn -> string.
Variable user_call : nat -> list value -> env -> state -> result value * state.

Lemma extends_parent_mono (st st' : state) (L : Logger) :
  (forall (p : loc) (P : Logger),
     loggers st !! p = Some P -> loggers st' !! p = Some P) ->
  extends_parent st L -> extends_parent st' L.
Proof.
  intros Hmono. unfold extends_parent.
  destruct (_parent L) as [p|]; [|trivial].
  intros (P & HP & Hns). exists P. split; [now apply Hmono | exact Hns].
Qed.

Lemma store_ok_same_loggers (st st' : state) :
  loggers st' = loggers st -> store_ok fn_source st -> store_ok fn_source st'.
Proof.
  intros Heq Hok l L HL. rewrite Heq in HL.
  destruct (Hok l L HL) as [Hp He]. split; [exact Hp|].
  apply (extends_parent_mono st st'); [|exact He].
  intros p P HP. now rewrite Heq.
Qed.

Lemma store_ok_insert (st : state) (l : loc) (L : Logger) :
  store_ok fn_source st ->
  loggers st !! l = None ->
  prefix_ok fn_source L ->
  extends_parent st L ->
  store_ok fn_source (set_logger l L st).
Proof.
  intros Hok Hfree Hp He l' L' HL'.
  assert (Hmono : forall (p : loc) (P : Logger),
             loggers st !! p = Some P ->
             loggers (set_logger l L st) !! p = Some P).
  { intros p P HP. rewrite set_logger_other; [exact HP|].
    intros ->. congruence. }
  cbn [loggers set_logger] in HL'.
  destruct (decide (l = l')) as [<-|Hne].
  - rewrite lookup_insert_eq in HL'. injection HL' as <-.
    split; [exact Hp|]. now apply (extends_parent_mono st).
  - rewrite lookup_insert_ne in HL' by exact Hne.
    destruct (Hok l' L' HL') as [Hp' He']. split; [exact Hp'|].
    now apply (extends_parent_mono st).
Qed.

Lemma new_Log_keeps_store_ok (namespace : value) (st : state) :
  store_ok fn_source st ->
  store_ok fn_source (snd (new_Log fn_source namespace st)).
Proof.
  intros Hok. unfold new_Log. cbn [snd].
  apply store_ok_insert; [exact Hok | apply fresh_unused | reflexivity |].
  exact I.
Qed.

Lemma sub_keeps_store_ok (this : loc) (namespace : value) (st : state) :
  store_ok fn_source st ->
  store_ok fn_source (snd (sub fn_source this namespace st)).
Proof.
  intros Hok.
  destruct (loggers st !! this) as [L|] eqn:HL.
  - rewrite (sub_returns fn_source st this L namespace HL). cbn [snd].
    apply store_ok_insert; [exact Hok | apply fresh_unused | reflexivity |].
    unfold extends_parent. cbn [_parent child_of].
    exists L. split; [exact HL|].
    change (_namespace (child_of fn_source this L namespace))
      with (_namespace L ++ pushed namespace).
    destruct (pushed_cases namespace) as [-> | (n & Hn & _ & ->)].
    + left. apply app_nil_r.
    + right. now exists n.
  - unfold sub. now rewrite HL.
Qed.

Lemma setEngine_frame (r : receiver) (e : value) (st : state) :
  loggers (snd (setEngine r e st)) = loggers st /\
  console (snd (setEngine r e st)) = console st /\
  Log_engine (snd (setEngine r e st))
    = if engine_accepted e then e else Log_engine st.
Proof.
  destruct (engine_accepted e) eqn:He.
  - now rewrite (setEngine_accepted r e st He).
  - assert (Hr : engine_rejected e = true)
      by (rewrite rejected_not_accepted, He; reflexivity).
    destruct (setEngine_rejected r e st Hr) as [err ->]. now cbn.
Qed.

Lemma logMessage_engine (level : value) (items : list value) (st : state) :
  Log_engine (logMessage level items st) = Log_engine st.
Proof.
  unfold logMessage.
  repeat match goal with
         | |- context [match ?x with _ => _ end] => destruct x
         end; reflexivity.
Qed.

Lemma emit_engine (e : env) (level message : value) (items : list value)
    (st : state) :
  Log_engine (snd (emit e level message items st)) = Log_engine st.
Proof.
  unfold emit. destruct (getLogInfo e message items); cbn [snd];
    [apply logMessage_engine | reflexivity].
Qed.

Lemma builtin_well_behaved (engine : value) :
  is_builtin_engine engine -> well_behaved user_call engine.
Proof.
  intros [-> | [-> | ->]] actuals e st.
  - cbn [engines_basic get assoc String.eqb Ascii.eqb Bool.eqb call].
    unfold basic_logObject.
    destruct (argument 2 actuals); try (split; reflexivity).
    split; [apply emit_loggers | apply emit_engine].
  - cbn [engines_interactive get assoc String.eqb Ascii.eqb Bool.eqb call].
    unfold interactive_logObject.
    destruct (argument 2 actuals) as [| | | | |items| |];
      try (split; reflexivity).
    destruct items, (userAgent e); try (split; reflexivity);
      (split; [apply emit_loggers | apply emit_engine]).
  - split; reflexivity.
Qed.

Lemma makeLevel_well_behaved (k : Z) (this : loc) (args : list value)
    (e : env) (st : state) :
  well_behaved user_call (Log_engine st) ->
  loggers (snd (makeLevel fn_source user_call k this args e st)) = loggers st /\
  Log_engine (snd (makeLevel fn_source user_call k this args e st))
    = Log_engine st.
Proof.
  intros Hw. unfold makeLevel.
  destruct (loggers st !! this) as [L|]; [|split; reflexivity].
  rewrite !snd_discard_value. unfold dispatch.
  pose proof (Hw [VNum (NInt k); VStr (prefixed fn_source L args);
                  VArr (tl args)] e st) as Hcall.
  destruct (Log_engine st) eqn:He; try exact Hcall;
    (split; [reflexivity | exact He]).
Qed.

Lemma default_engine_accepted (w c cl : bool) :
  engine_accepted (default_engine w c cl) = true.
Proof. now destruct w, c, cl. Qed.

Lemma module_init_state (w c cl : bool) :
  snd (module_init fn_source w c cl) =
  snd (sub fn_source
         (fst (new_Log fn_source VUndefined
                 (set_engine (default_engine w c cl) empty_state)))
         VUndefined
         (snd (new_Log fn_source VUndefined
                 (set_engine (default_engine w c cl) empty_state)))).
Proof.
  unfold module_init.
  rewrite (setEngine_accepted OnLog _ empty_state
             (default_engine_accepted w c cl)).
  cbn [snd].
  destruct (new_Log fn_source VUndefined _) as [r st1]. cbn [fst snd].
  now destruct (sub fn_source r VUndefined st1) as [i st2].
Qed.

(** Whatever is done with the module after it is loaded ([new Log],
    [sub], [setEngine] accepted or refused, level calls under engines
    that write neither loggers nor [Log.engine]): [Log.engine] is an
    object with a callable [logObject]; every stored logger has the
    prefix computed from its segments; and the parent of a logger is
    stored, with the logger's segments being the parent's followed by
    at most one non-empty name. *)
Theorem reachable_invariant (st : state) :
  reachable fn_source user_call st ->
  store_ok fn_source st /\ engine_accepted (Log_engine st) = true.
Proof.
  induction 1 as [w c cl | st st' _ [Hok Heng] Hstep].
  - rewrite module_init_state. split.
    + apply sub_keeps_store_ok, new_Log_keeps_store_ok.
      intros l L HL. cbn in HL. now rewrite lookup_empty in HL.
    + destruct (loggers (snd (new_Log fn_source VUndefined
                   (set_engine (default_engine w c cl) empty_state)))
                !! fst (new_Log fn_source VUndefined
                   (set_engine (default_engine w c cl) empty_state)))
        as [L|] eqn:HL.
      * rewrite (sub_returns fn_source _ _ L VUndefined HL).
        apply default_engine_accepted.
      * unfold sub. rewrite HL. apply default_engine_accepted.
  - destruct Hstep as [namespace | this namespace | r engine | k this args e Hw].
    + split; [now apply new_Log_keeps_store_ok | exact Heng].
    + split; [now apply sub_keeps_store_ok|].
      destruct (loggers st !! this) as [L|] eqn:HL.
      * now rewrite (sub_returns fn_source st this L namespace HL).
      * unfold sub. now rewrite HL.
    + destruct (setEngine_frame r engine st) as (Hl & _ & He).
      split; [now apply (store_ok_same_loggers st)|].
      rewrite He. now destruct (engine_accepted engine) eqn:Ha.
    + destruct (makeLevel_well_behaved k this args e st Hw) as [Hl He].
      split; [now apply (store_ok_same_loggers st)|].
      now rewrite He.
Qed.

End Invariants.

Section Engines.

Variable fn_source : fn -> string.
Variable user_call : nat -> list value -> env -> state -> result value * state.

(** *** The engine none *)

Lemma makeLevel_none (k : Z) (this : loc) (args : list value) (e : env)
    (st : state) :
  Log_engine st = engines_none ->
  snd (makeLevel fn_source user_call k this args e st) = st.
Proof.
  intros He. unfold makeLevel.
  destruct (loggers st !! this); [|reflexivity].
  unfold dispatch. now rewrite He.
Qed.

(** With the engine none active, a script of level calls leaves the
    whole state as it was, the console included, and each call on a
    stored logger returns normally, whatever the stack text is. *)
Theorem none_engine_silent (calls : list level_call) (st : state) :
  Log_engine st = engines_none ->
  run_calls fn_source user_call calls st = st /\
  (forall (k : Z) (this : loc) (L : Logger) (args : list value) (e : env),
     loggers st !! this = Some L ->
     makeLevel fn_source user_call k this args e st = (Returned VUndefined, st)).
Proof.
  intros He. split.
  - induction calls as [|c calls IH]; [reflexivity|].
    cbn [run_calls]. now rewrite makeLevel_none.
  - intros k this L args e HL. unfold makeLevel. rewrite HL.
    unfold dispatch. now rewrite He.
Qed.

(** *** The interactive engine *)

Lemma prefix_append (p b : string) : String.prefix p (p +:+ b) = true.
Proof.
  induction p as [|c p IH]; [now destruct b|].
  rewrite append_cons. cbn [String.prefix].
  now destruct (ascii_dec c c).
Qed.

Lemma has_substring_append (p a b : string) :
  has_substring p (a +:+ p +:+ b) = true.
Proof.
  induction a as [|c a IH].
  - change ("" +:+ p +:+ b) with (p +:+ b).
    destruct (p +:+ b) eqn:Hpb; cbn [has_substring];
      rewrite <- Hpb, prefix_append; reflexivity.
  - rewrite append_cons. cbn [has_substring]. rewrite IH.
    apply orb_true_r.
Qed.

Lemma discard_value_emit (e : env) (level message : value)
    (items : list value) (st : state) :
  discard_value (emit e level message items st) = emit e level message items st.
Proof. unfold emit. now destruct (getLogInfo e message items). Qed.

Lemma discard_value_basic (actuals : list value) (e : env) (st : state) :
  discard_value (basic_logObject actuals e st) = basic_logObject actuals e st.
Proof.
  unfold basic_logObject.
  destruct (argument 2 actuals); try reflexivity. apply discard_value_emit.
Qed.

Lemma discard_value_interactive (actuals : list value) (e : env) (st : state) :
  discard_value (interactive_logObject actuals e st)
  = interactive_logObject actuals e st.
Proof.
  unfold interactive_logObject.
  destruct (argument 2 actuals) as [| | | | |items| |]; try reflexivity.
  destruct items, (userAgent e); try reflexivity; apply discard_value_emit.
Qed.

Lemma makeLevel_interactive (k : Z) (this : loc) (L : Logger)
    (args : list value) (e : env) (st : state) :
  Log_engine st = engines_interactive ->
  loggers st !! this = Some L ->
  makeLevel fn_source user_call k this args e st =
  interactive_logObject
    [VNum (NInt k); VStr (prefixed fn_source L args); VArr (tl args)] e st.
Proof.
  intros He HL. unfold makeLevel. rewrite HL.
  unfold dispatch. rewrite He.
  cbn [engines_interactive get assoc String.eqb Ascii.eqb Bool.eqb call].
  apply discard_value_interactive.
Qed.

(** Under the interactive engine, with a user agent that does not
    contain MSIE, a level call writes the extra values themselves,
    unserialized, after the five heading items, on the stream of the
    level. *)
Theorem interactive_passthrough (k : Z) (s : stream) (this : loc)
    (L : Logger) (args : list value) (e : env) (st : state)
    (agent where_ : string) :
  Log_engine st = engines_interactive ->
  loggers st !! this = Some L ->
  userAgent e = Some agent ->
  has_substring "MSIE" agent = false ->
  location (error_stack e) = Returned where_ ->
  stream_of_level k = Some s ->
  makeLevel fn_source user_call k this args e st =
    (Returned VUndefined,
     console_write s
       (heading e (prefixed fn_source L args) where_ ++ tl args) st).
Proof.
  intros He HL Hua Hms Hw Hs.
  rewrite (makeLevel_interactive k this L args e st He HL).
  unfold interactive_logObject. cbn [argument nth]. rewrite Hua.
  destruct (has_substring "MSIE" agent); [discriminate|].
  assert (Hemit : emit e (VNum (NInt k)) (VStr (prefixed fn_source L args))
                    (tl args) st =
                  (Returned VUndefined,
                   console_write s
                     (heading e (prefixed fn_source L args) where_ ++ tl args)
                     st)).
  { unfold emit, getLogInfo. rewrite Hw.
    now rewrite (logMessage_routes k s _ st Hs). }
  destruct (tl args) as [|x extras] eqn:Htl.
  - exact Hemit.
  - rewrite List.map_id. exact Hemit.
Qed.

(** With MSIE anywhere in the user agent, the interactive engine does
    what the basic engine does, on every list of actual arguments. *)
Theorem interactive_legacy_as_basic (actuals : list value) (e : env)
    (st : state) (before after : string) :
  userAgent e = Some (before +:+ "MSIE" +:+ after) ->
  interactive_logObject actuals e st = basic_logObject actuals e st.
Proof.
  intros Hua. unfold interactive_logObject, basic_logObject. rewrite Hua.
  rewrite has_substring_append.
  destruct (argument 2 actuals) as [| | | | |items| |]; try reflexivity.
  now destruct items.
Qed.

(** Where there is no [navigator], a level call with at least one
    extra value raises a ReferenceError under the interactive engine
    and writes nothing. *)
Theorem interactive_without_navigator (k : Z) (this : loc) (L : Logger)
    (msg x : value) (extras : list value) (e : env) (st : state) :
  Log_engine st = engines_interactive ->
  loggers st !! this = Some L ->
  userAgent e = None ->
  makeLevel fn_source user_call k this (msg :: x :: extras) e st =
    (Threw ReferenceError, st).
Proof.
  intros He HL Hua.
  rewrite (makeLevel_interactive k this L _ e st He HL).
  unfold interactive_logObject. cbn [argument nth tl]. now rewrite Hua.
Qed.

(** *** Calling an engine directly *)

Lemma logMessage_routed (level : value) (items : list value) (st : state) :
  logMessage level items st =
  match routed level with
  | Some s => console_write s items st
  | None => st
  end.
Proof.
  destruct level as [| |b|n|t|l|fields|f ms]; try reflexivity.
  destruct n as [z| |]; try reflexivity.
  destruct z as [|p|p]; try reflexivity.
  destruct p as [p|p|]; try reflexivity;
    destruct p as [p|p|]; try reflexivity;
    destruct p as [p|p|]; reflexivity.
Qed.

(** A level value that is not the number 1, 2, 3 or 4 (0, 5, the text
    "1") has no case in the [switch] of [logMessage]: the basic engine
    then returns normally and nothing is written. *)
Theorem unrouted_level_writes_nothing (level message : value)
    (extras : list value) (e : env) (st : state) (where_ : string) :
  routed level = None ->
  location (error_stack e) = Returned where_ ->
  basic_logObject [level; message; VArr extras] e st = (Returned VUndefined, st).
Proof.
  intros Hr Hw. unfold basic_logObject. cbn [argument nth].
  unfold emit, getLogInfo. rewrite Hw.
  now rewrite logMessage_routed, Hr.
Qed.

(** Both printing engines call [map] on their third argument: when
    that is no array and has no callable [map] of its own (an engine
    called with two arguments, say), they raise a TypeError and write
    nothing. *)
Theorem engines_need_array (actuals : list value) (e : env) (st : state) :
  isArray (argument 2 actuals) = false ->
  has_callable "map" (argument 2 actuals) = false ->
  basic_logObject actuals e st = (Threw TypeError, st) /\
  interactive_logObject actuals e st = (Threw TypeError, st).
Proof.
  intros Ha _. unfold basic_logObject, interactive_logObject.
  destruct (argument 2 actuals); try discriminate; split; reflexivity.
Qed.

(** *** User engines *)

(** A level method calls the [logObject] of a user engine with exactly
    three arguments: the level number, the prefix followed by the
    first argument as text, and the array of the other arguments. The
    state the engine leaves is the state after the level method; what
    the engine throws, the level method throws; what the engine
    returns is dropped, and the level method returns undefined. *)
Theorem user_engine_contract (k : Z) (this : loc) (L : Logger)
    (args : list value) (e : env) (st : state) (n : nat)
    (ms : list (string * value)) :
  loggers st !! this = Some L ->
  get (Log_engine st) "logObject" = VFun (FUser n) ms ->
  plain (argument 0 args) = true ->
  (forall (v : value) (st' : state),
     user_call n
       [ VNum (NInt k);
         VStr (_prefix L +:+ to_string fn_source (argument 0 args));
         VArr (tl args) ] e st = (Returned v, st') ->
     makeLevel fn_source user_call k this args e st
       = (Returned VUndefined, st')) /\
  (forall (err : js_error) (st' : state),
     user_call n
       [ VNum (NInt k);
         VStr (_prefix L +:+ to_string fn_source (argument 0 args));
         VArr (tl args) ] e st = (Threw err, st') ->
     makeLevel fn_source user_call k this args e st = (Threw err, st')).
Proof.
  intros HL Hget _.
  rewrite (makeLevel_user fn_source user_call k this L args e st n ms HL Hget).
  unfold handed, prefixed.
  split; intros x st' ->; reflexivity.
Qed.

(** *** One write per call *)

Lemma emit_console (e : env) (level message : value) (items : list value)
    (st : state) :
  console (snd (emit e level message items st)) = console st \/
  exists (s : stream) (written : list value),
    routed level = Some s /\
    emit e level message items st
      = (Returned VUndefined, console_write s written st) /\
    length written = 5 + length items.
Proof.
  unfold emit, getLogInfo.
  destruct (location (error_stack e)) as [where_|err]; [|now left].
  rewrite logMessage_routed.
  destruct (routed level) as [s|]; [|now left].
  right. eexists s, _. split; [reflexivity|]. split; [reflexivity|].
  reflexivity.
Qed.

(** Under each of the three engines of the module, a level call either
    leaves the console as it was or puts one entry in front of it: on
    the stream of the level, with five items and then one item per
    extra value, the call returning normally. *)
Theorem level_call_writes_at_most_once (k : Z) (this : loc)
    (args : list value) (e : env) (st : state) :
  is_builtin_engine (Log_engine st) ->
  console (snd (makeLevel fn_source user_call k this args e st)) = console st \/
  exists (s : stream) (written : list value),
    stream_of_level k = Some s /\
    makeLevel fn_source user_call k this args e st
      = (Returned VUndefined, console_write s written st) /\
    length written = 5 + length (tl args).
Proof.
  intros Hb. unfold makeLevel.
  destruct (loggers st !! this) as [L|]; [|now left].
  unfold dispatch.
  destruct Hb as [He | [He | He]]; rewrite He.
  - cbn [engines_basic get assoc String.eqb Ascii.eqb Bool.eqb call].
    rewrite discard_value_basic.
    unfold basic_logObject. cbn [argument nth].
    destruct (emit_console e (VNum (NInt k))
                (VStr (prefixed fn_source L args))
                (List.map JSON_stringify (tl args)) st)
      as [Hsame | (s & written & Hs & Hemit & Hlen)]; [now left|].
    right. exists s, written. rewrite length_map in Hlen. auto.
  - cbn [engines_interactive get assoc String.eqb Ascii.eqb Bool.eqb call].
    rewrite discard_value_interactive.
    unfold interactive_logObject. cbn [argument nth].
    destruct (tl args) as [|x extras] eqn:Htl, (userAgent e) as [agent|];
      try (now left).
    + destruct (emit_console e (VNum (NInt k))
                  (VStr (prefixed fn_source L args))
                  (List.map (fun arg => if has_substring "MSIE" agent
                                        then JSON_stringify arg else arg) [])
                  st)
        as [Hsame | (s & written & Hs & Hemit & Hlen)]; [now left|].
      right. exists s, written. auto.
    + destruct (emit_console e (VNum (NInt k))
                  (VStr (prefixed fn_source L args)) [] st)
        as [Hsame | (s & written & Hs & Hemit & Hlen)]; [now left|].
      right. exists s, written. auto.
    + destruct (emit_console e (VNum (NInt k))
                  (VStr (prefixed fn_source L args))
                  (List.map (fun arg => if has_substring "MSIE" agent
                                        then JSON_stringify arg else arg)
                            (x :: extras)) st)
        as [Hsame | (s & written & Hs & Hemit & Hlen)]; [now left|].
      right. exists s, written. rewrite length_map in Hlen. auto.
  - now left.
Qed.

(** A level method called without any argument logs the prefix
    followed by the text [undefined], and no extra value. *)
Theorem level_without_arguments (k : Z) (s : stream) (this : loc)
    (L : Logger) (e : env) (st : state) (where_ : string) :
  Log_engine st = engines_basic ->
  loggers st !! this = Some L ->
  location (error_stack e) = Returned where_ ->
  stream_of_level k = Some s ->
  makeLevel fn_source user_call k this [] e st =
    (Returned VUndefined,
     console_write s (heading e (_prefix L +:+ "undefined") where_) st).
Proof.
  intros He HL Hw Hs.
  rewrite (makeLevel_basic fn_source user_call k this L [] e st where_ He HL Hw).
  rewrite (logMessage_routes k s _ st Hs).
  cbn [tl List.map]. now rewrite app_nil_r.
Qed.

End Engines.

Section LocationAndRegistry.

Variable fn_source : fn -> string.
Variable user_call : nat -> list value -> env -> state -> result value * state.

(** *** Where the location read raises *)

Lemma split_lines_length (s : string) :
  length (split_lines s) = S (count_lf s).
Proof.
  induction s as [|c s IH]; [reflexivity|].
  cbn [split_lines count_lf].
  destruct (Ascii.eqb c "010"%char).
  - cbn [length]. now rewrite IH.
  - destruct (split_lines s) as [|line rest]; [discriminate IH|].
    cbn [length] in *. exact IH.
Qed.

Lemma location_raises (stack : value) :
  (exists err : js_error, location stack = Threw err) <->
  (exists text : string, stack = VStr text /\ count_lf text < 4).
Proof.
  split.
  - intros [err Herr].
    destruct stack as [| |b|n|text|l|fields|f ms]; try discriminate.
    exists text. split; [reflexivity|].
    unfold location in Herr.
    destruct (nth_error (split_lines text) 4) eqn:Hn; [discriminate|].
    apply nth_error_None in Hn. rewrite split_lines_length in Hn. lia.
  - intros (text & -> & Hlt). exists TypeError.
    apply location_short_stack. rewrite split_lines_length. lia.
Qed.

(** Under the basic engine a level call on a stored logger, with
    arguments that are plain data, raises exactly when the stack is a
    text with fewer than four line feeds; on every other stack, and
    where there is none, it returns. *)
Theorem basic_level_call_raises_iff (k : Z) (this : loc) (L : Logger)
    (args : list value) (e : env) (st : state) :
  Log_engine st = engines_basic ->
  loggers st !! this = Some L ->
  forallb plain args = true ->
  ((exists err : js_error,
      fst (makeLevel fn_source user_call k this args e st) = Threw err) <->
   (exists text : string, error_stack e = VStr text /\ count_lf text < 4)).
Proof.
  intros He HL _. rewrite <- location_raises.
  unfold makeLevel. rewrite HL. unfold dispatch. rewrite He.
  cbn [engines_basic get assoc String.eqb Ascii.eqb Bool.eqb call].
  unfold basic_logObject. cbn [argument nth]. unfold emit, getLogInfo.
  destruct (location (error_stack e)) as [where_|err]; cbn [fst]; split.
  - intros [err Herr]. discriminate.
  - intros [err Herr]. discriminate.
  - intros _. now exists err.
  - intros _. now exists err.
Qed.

Lemma trim_start_trimmed (s : string) :
  starts_with_space (trim_start s) = false.
Proof.
  induction s as [|c s IH]; [reflexivity|].
  cbn [trim_start]. destruct (is_space c) eqn:Hc; [exact IH|].
  cbn [starts_with_space]. exact Hc.
Qed.

(** What [getLogInfo] returns, when it returns: five items and then
    the given ones, unchanged and in order; the first is the timestamp
    between brackets, the second the message as given, and the fourth,
    the location, is a text that does not begin with a blank. *)
Theorem getLogInfo_shape (e : env) (message : value) (args items : list value) :
  getLogInfo e message args = Returned items ->
  length items = 5 + length args /\
  skipn 5 items = args /\
  nth_error items 0 = Some (VStr ("[" +:+ now_iso e +:+ "]")) /\
  nth_error items 1 = Some message /\
  exists where_ : string,
    nth_error items 3 = Some (VStr where_) /\
    starts_with_space where_ = false.
Proof.
  unfold getLogInfo.
  destruct (location (error_stack e)) as [where_|err] eqn:Hw; [|discriminate].
  intros [= <-].
  repeat split. exists where_. split; [reflexivity|].
  unfold location in Hw.
  destruct (error_stack e) as [| |b|n|text|l|fields|f ms];
    try (injection Hw as <-; reflexivity).
  destruct (nth_error (split_lines text) 4) as [line|]; [|discriminate].
  injection Hw as <-. apply trim_start_trimmed.
Qed.

(** *** Loading the module *)

(** On every host the module loads without an assertion failing and
    without writing: the engine chosen for the host is active, the
    root logger has no segment and the empty prefix, and the internal
    logger is a second object, child of the root, with the same empty
    segments and prefix. *)
Theorem module_init_result (has_window has_console has_console_log : bool) :
  let ex := fst (module_init fn_source has_window has_console has_console_log) in
  let st := snd (module_init fn_source has_window has_console has_console_log) in
  Log_engine st = default_engine has_window has_console has_console_log /\
  console st = [] /\
  size (loggers st) = 2 /\
  loggers st !! root ex
    = Some {| _namespace := []; _prefix := ""; _parent := None |} /\
  exists i : loc,
    internal ex = Returned i /\
    i <> root ex /\
    loggers st !! i
      = Some {| _namespace := []; _prefix := ""; _parent := Some (root ex) |}.
Proof.
  destruct has_window, has_console, has_console_log;
    (repeat split; exists 1; repeat split; discriminate).
Qed.

(** *** Replacing the engine *)

(** A refused [setEngine] keeps the engine set before it; of two
    accepted ones the last is active, and the state is the one a
    single [setEngine] of the last would give. *)
Theorem setEngine_last_accepted_wins (r1 r2 : receiver) (e1 e2 bad : value)
    (st : state) :
  engine_accepted e1 = true ->
  engine_accepted e2 = true ->
  engine_rejected bad = true ->
  snd (setEngine r2 bad (snd (setEngine r1 e1 st))) = set_engine e1 st /\
  snd (setEngine r2 e2 (snd (setEngine r1 e1 st))) = set_engine e2 st /\
  getEngine r1 (snd (setEngine r2 e2 (snd (setEngine r1 e1 st)))) = e2.
Proof.
  intros H1 H2 Hbad.
  rewrite (setEngine_accepted r1 e1 st H1). cbn [snd].
  rewrite (setEngine_accepted r2 e2 _ H2). cbn [snd].
  destruct (setEngine_rejected r2 bad (set_engine e1 st) Hbad) as [err ->].
  repeat split.
Qed.

End LocationAndRegistry.

(** * Instances of the further properties *)

Lemma sub_without_name_witness :
  (loggers node_state !! root_loc = Some root_logger /\
   truthy (VArr [VStr "net"])
     && String.eqb (typeof (VArr [VStr "net"])) "string" = false) /\
  exists (l : loc) (st' : state),
    sub sample_source root_loc (VArr [VStr "net"]) node_state
      = (Returned l, st') /\
    l <> root_loc /\
    loggers st' !! l =
      Some {| _namespace := _namespace root_logger;
              _prefix := array_join sample_source ": "
                           (_namespace root_logger ++ [VStr ""]);
              _parent := Some root_loc |} /\
    loggers st' !! root_loc = Some root_logger.
Proof.
  split; [split; reflexivity|].
  apply (sub_without_name sample_source node_state root_loc root_logger
           (VArr [VStr "net"])); reflexivity.
Defined.

Lemma sub_frame_witness :
  loggers node_state !! root_loc = Some root_logger /\
  exists (l : loc) (st' : state),
    sub sample_source root_loc (VStr "net") node_state = (Returned l, st') /\
    loggers node_state !! l = None /\
    (forall (l' : loc) (L' : Logger),
       loggers node_state !! l' = Some L' -> loggers st' !! l' = Some L') /\
    size (loggers st') = S (size (loggers node_state)) /\
    Log_engine st' = Log_engine node_state /\
    console st' = console node_state.
Proof.
  split; [reflexivity|].
  apply (sub_frame sample_source node_state root_loc root_logger (VStr "net")).
  reflexivity.
Defined.

Lemma sub_prefix_extends_witness :
  (loggers node_state !! root_loc = Some root_logger /\
   prefix_ok sample_source root_logger /\
   "server" <> "") /\
  exists (l : loc) (st' : state) (child : Logger),
    sub sample_source root_loc (VStr "server") node_state = (Returned l, st') /\
    loggers st' !! l = Some child /\
    _prefix child = _prefix root_logger +:+ "server" +:+ ": " /\
    (forall (msg : string) (extras : list value),
       prefixed sample_source child (VStr msg :: extras) =
       _prefix root_logger +:+ "server" +:+ ": " +:+ msg).
Proof.
  split; [split; [reflexivity | split; [reflexivity | discriminate]]|].
  apply (sub_prefix_extends sample_source node_state root_loc root_logger
           "server"); [reflexivity | reflexivity | discriminate].
Defined.

Lemma sub_path_segments_witness :
  (loggers node_state !! root_loc = Some root_logger /\
   Forall (fun n : string => n <> "") ["net"; "tcp"; "client"]) /\
  exists (l : loc) (st' : state) (L' : Logger),
    sub_path sample_source root_loc
      (List.map VStr ["net"; "tcp"; "client"]) node_state = (Returned l, st') /\
    loggers st' !! l = Some L' /\
    _namespace L'
      = _namespace root_logger ++ List.map VStr ["net"; "tcp"; "client"] /\
    (prefix_ok sample_source root_logger -> prefix_ok sample_source L').
Proof.
  assert (Hne : Forall (fun n : string => n <> "") ["net"; "tcp"; "client"])
    by (repeat constructor; discriminate).
  split; [split; [reflexivity | exact Hne]|].
  apply (sub_path_segments sample_source ["net"; "tcp"; "client"] node_state
           root_loc root_logger); [reflexivity | exact Hne].
Defined.

Lemma reachable_invariant_witness :
  reachable sample_source sample_user_call
    (snd (setEngine OnLog VNull
            (snd (sub sample_source root_loc (VStr "net") node_state)))) /\
  store_ok sample_source
    (snd (setEngine OnLog VNull
            (snd (sub sample_source root_loc (VStr "net") node_state)))) /\
  engine_accepted
    (Log_engine
       (snd (setEngine OnLog VNull
               (snd (sub sample_source root_loc (VStr "net") node_state)))))
    = true.
Proof.
  assert (Hr : reachable sample_source sample_user_call
                 (snd (setEngine OnLog VNull
                         (snd (sub sample_source root_loc (VStr "net")
                                 node_state))))).
  { apply reachable_step
      with (st := snd (sub sample_source root_loc (VStr "net") node_state));
      [|apply step_setEngine].
    apply reachable_step with (st := node_state); [|apply step_sub].
    apply (reachable_init sample_source sample_user_call false true true). }
  split; [exact Hr|].
  apply (reachable_invariant sample_source sample_user_call _ Hr).
Defined.

Lemma none_engine_silent_witness :
  Log_engine silent_state = engines_none /\
  run_calls sample_source sample_user_call
    [ {| call_level := 4; call_this := 0;
         call_args := [VStr "failed"; VObj [("code", VNum (NInt 7))]];
         call_env := sample_env |};
      {| call_level := 2; call_this := 1;
         call_args := [VStr "started"];
         call_env := short_env |} ]
    silent_state = silent_state.
Proof.
  split; [reflexivity|].
  apply (none_engine_silent sample_source sample_user_call _ silent_state).
  reflexivity.
Defined.

Lemma interactive_passthrough_witness :
  (Log_engine browser_state = engines_interactive /\
   loggers browser_state !! root_loc = Some root_logger /\
   userAgent browser_env
     = Some "Mozilla/5.0 (X11; Linux x86_64) Gecko/20100101" /\
   has_substring "MSIE" "Mozilla/5.0 (X11; Linux x86_64) Gecko/20100101"
     = false /\
   location (error_stack browser_env) = Returned "at main (app.js:3:7)" /\
   stream_of_level 4 = Some ConsoleError) /\
  makeLevel sample_source sample_user_call 4 root_loc
    [VStr "failed"; VObj [("code", VNum (NInt 7))]] browser_env browser_state =
    (Returned VUndefined,
     console_write ConsoleError
       (heading browser_env
          (prefixed sample_source root_logger
             [VStr "failed"; VObj [("code", VNum (NInt 7))]])
          "at main (app.js:3:7)"
        ++ [VObj [("code", VNum (NInt 7))]])
       browser_state).
Proof.
  split; [repeat split|].
  apply (interactive_passthrough sample_source sample_user_call 4 ConsoleError
           root_loc root_logger
           [VStr "failed"; VObj [("code", VNum (NInt 7))]]
           browser_env browser_state
           "Mozilla/5.0 (X11; Linux x86_64) Gecko/20100101"
           "at main (app.js:3:7)"); reflexivity.
Defined.

Lemma interactive_legacy_as_basic_witness :
  userAgent legacy_env
    = Some ("Mozilla/4.0 (compatible; " +:+ "MSIE"
              +:+ " 8.0; Windows NT 6.1)") /\
  interactive_logObject
    [VNum (NInt 3); VStr "slow"; VArr [VObj [("ms", VNum (NInt 900))]]]
    legacy_env browser_state =
  basic_logObject
    [VNum (NInt 3); VStr "slow"; VArr [VObj [("ms", VNum (NInt 900))]]]
    legacy_env browser_state.
Proof.
  split; [reflexivity|].
  apply (interactive_legacy_as_basic _ legacy_env browser_state
           "Mozilla/4.0 (compatible; " " 8.0; Windows NT 6.1)").
  reflexivity.
Defined.

Lemma interactive_without_navigator_witness :
  (Log_engine browser_state = engines_interactive /\
   loggers browser_state !! root_loc = Some root_logger /\
   userAgent sample_env = None) /\
  makeLevel sample_source sample_user_call 2 root_loc
    [VStr "state"; VNum (NInt 1)] sample_env browser_state
    = (Threw ReferenceError, browser_state).
Proof.
  split; [repeat split|].
  apply (interactive_without_navigator sample_source sample_user_call 2
           root_loc root_logger (VStr "state") (VNum (NInt 1)) []
           sample_env browser_state); reflexivity.
Defined.

Lemma unrouted_level_writes_nothing_witness :
  (routed (VStr "1") = None /\
   location (error_stack sample_env) = Returned "at main (app.js:3:7)") /\
  basic_logObject [VStr "1"; VStr "lost"; VArr []] sample_env node_state
    = (Returned VUndefined, node_state).
Proof.
  split; [split; reflexivity|].
  apply (unrouted_level_writes_nothing (VStr "1") (VStr "lost") []
           sample_env node_state "at main (app.js:3:7)"); reflexivity.
Defined.

Lemma engines_need_array_witness :
  (isArray (argument 2 [VNum (NInt 2); VStr "two arguments"]) = false /\
   has_callable "map" (argument 2 [VNum (NInt 2); VStr "two arguments"])
     = false) /\
  basic_logObject [VNum (NInt 2); VStr "two arguments"] sample_env node_state
    = (Threw TypeError, node_state) /\
  interactive_logObject [VNum (NInt 2); VStr "two arguments"] sample_env
    node_state = (Threw TypeError, node_state).
Proof.
  split; [split; reflexivity|].
  apply (engines_need_array [VNum (NInt 2); VStr "two arguments"]
           sample_env node_state); reflexivity.
Defined.

Lemma user_engine_contract_witness :
  (loggers (set_engine user_engine node_state) !! root_loc = Some root_logger /\
   get (Log_engine (set_engine user_engine node_state)) "logObject"
     = VFun (FUser 0) [] /\
   plain (argument 0 [VStr "boom"; VNull]) = true) /\
  makeLevel sample_source answering_user_call 3 root_loc
    [VStr "boom"; VNull] sample_env (set_engine user_engine node_state) =
  (Returned VUndefined, set_engine user_engine node_state) /\
  makeLevel sample_source throwing_user_call 3 root_loc
    [VStr "boom"; VNull] sample_env (set_engine user_engine node_state) =
  (Threw (UserError (VStr "boom")), set_engine user_engine node_state).
Proof.
  split; [repeat split|].
  split.
  - apply (user_engine_contract sample_source answering_user_call 3 root_loc
             root_logger [VStr "boom"; VNull] sample_env
             (set_engine user_engine node_state) 0 [] eq_refl eq_refl eq_refl)
      with (v := VNum (NInt 5)).
    reflexivity.
  - apply (user_engine_contract sample_source throwing_user_call 3 root_loc
             root_logger [VStr "boom"; VNull] sample_env
             (set_engine user_engine node_state) 0 [] eq_refl eq_refl eq_refl).
    reflexivity.
Defined.

Lemma level_call_writes_at_most_once_witness :
  is_builtin_engine (Log_engine node_state) /\
  (console (snd (makeLevel sample_source sample_user_call 3 root_loc
                   [VStr "slow"; VNum (NInt 900)] sample_env node_state))
     = console node_state \/
   exists (s : stream) (written : list value),
     stream_of_level 3 = Some s /\
     makeLevel sample_source sample_user_call 3 root_loc
       [VStr "slow"; VNum (NInt 900)] sample_env node_state
       = (Returned VUndefined, console_write s written node_state) /\
     length written = 5 + length (tl [VStr "slow"; VNum (NInt 900)])).
Proof.
  split; [left; reflexivity|].
  apply (level_call_writes_at_most_once sample_source sample_user_call 3
           root_loc [VStr "slow"; VNum (NInt 900)] sample_env node_state).
  left. reflexivity.
Defined.

Lemma level_without_arguments_witness :
  (Log_engine node_state = engines_basic /\
   loggers node_state !! root_loc = Some root_logger /\
   location (error_stack sample_env) = Returned "at main (app.js:3:7)" /\
   stream_of_level 1 = Some ConsoleLog) /\
  makeLevel sample_source sample_user_call 1 root_loc [] sample_env node_state =
    (Returned VUndefined,
     console_write ConsoleLog
       (heading sample_env (_prefix root_logger +:+ "undefined")
          "at main (app.js:3:7)") node_state).
Proof.
  split; [repeat split|].
  apply (level_without_arguments sample_source sample_user_call 1 ConsoleLog
           root_loc root_logger sample_env node_state "at main (app.js:3:7)");
    reflexivity.
Defined.

Lemma basic_level_call_raises_iff_witness :
  (Log_engine node_state = engines_basic /\
   loggers node_state !! root_loc = Some root_logger /\
   forallb plain [VStr "started"] = true) /\
  ((exists err : js_error,
      fst (makeLevel sample_source sample_user_call 2 root_loc
             [VStr "started"] short_env node_state) = Threw err) <->
   (exists text : string,
      error_stack short_env = VStr text /\ count_lf text < 4)).
Proof.
  split; [repeat split|].
  apply (basic_level_call_raises_iff sample_source sample_user_call 2 root_loc
           root_logger [VStr "started"] short_env node_state); reflexivity.
Defined.

Lemma getLogInfo_shape_witness :
  getLogInfo sample_env (VStr "ready") [VNum (NInt 1)] =
    Returned [ VStr "[2018-03-01T12:00:00.000Z]"; VStr "ready"; VStr "--";
               VStr "at main (app.js:3:7)"; VStr newline; VNum (NInt 1) ] /\
  length [ VStr "[2018-03-01T12:00:00.000Z]"; VStr "ready"; VStr "--";
           VStr "at main (app.js:3:7)"; VStr newline; VNum (NInt 1) ]
    = 5 + length [VNum (NInt 1)].
Proof.
  split; [reflexivity|].
  apply (getLogInfo_shape sample_env (VStr "ready") [VNum (NInt 1)]).
  reflexivity.
Defined.

Lemma setEngine_last_accepted_wins_witness :
  (engine_accepted engines_none = true /\
   engine_accepted engines_interactive = true /\
   engine_rejected (VStr "basic") = true) /\
  snd (setEngine (OnInstance root_loc) (VStr "basic")
         (snd (setEngine OnLog engines_none node_state)))
    = set_engine engines_none node_state /\
  snd (setEngine (OnInstance root_loc) engines_interactive
         (snd (setEngine OnLog engines_none node_state)))
    = set_engine engines_interactive node_state.
Proof.
  split; [repeat split|].
  split;
    apply (setEngine_last_accepted_wins OnLog (OnInstance root_loc)
             engines_none engines_interactive (VStr "basic") node_state);
    reflexivity.
Defined.
